(** * DevConnectBot: webhook signature verification and push-event formatting

    A shallow embedding of the two source files of the repository,

    - [app/api/webhook/github/route.js]  (module [Route]), and
    - [services/github-webhook.js]       (module [Service]),

    together with the JavaScript and Node built-ins they call (modules [JS]
    and [Crypto]), followed by the properties proved about them. *)

From Stdlib Require Import ZArith List String Ascii Bool Arith Lia DecimalString Sorted.
Import ListNotations.
Open Scope string_scope.

(* ================================================================== *)
(** * JavaScript values and built-ins *)
(* ================================================================== *)

Module JS.

(** ** Strings

    A JavaScript string is kept as the bytes of its UTF-8 encoding (Rocq's
    [string]), which is what [Buffer.from(s)] and [hmac.update(s, 'utf-8')]
    see.  The string operations the sources use ([replace] and [split] with
    an ASCII pattern, [slice] on an ASCII string, iteration by code point)
    give the same result on the UTF-8 bytes as on UTF-16 code units for every
    well-formed string; lone surrogates are outside the model. *)

Definition LF : string := String "010"%char EmptyString.

Definition is_empty (s : string) : bool :=
  match s with EmptyString => true | String _ _ => false end.

(** [s.replace(pattern, replacement)] with a string pattern: the first
    occurrence only.  The replacements used by the sources ('' and ' ')
    contain no [$], so no substitution pattern is expanded. *)
Definition String_replace (s pattern replacement : string) : string :=
  match index 0 pattern s with
  | None => s
  | Some i =>
      substring 0 i s ++ replacement
        ++ substring (i + length pattern) (length s - (i + length pattern)) s
  end.

(** [s.slice(0, n)]. *)
Definition String_slice0 (s : string) (n : nat) : string := substring 0 n s.

(** [s.split(sep)] for a one-character separator. *)
Fixpoint String_split (sep : ascii) (s : string) : list string :=
  match s with
  | EmptyString => [EmptyString]
  | String c rest =>
      if Ascii.eqb c sep then EmptyString :: String_split sep rest
      else match String_split sep rest with
           | [] => [String c EmptyString]
           | piece :: pieces => String c piece :: pieces
           end
  end.

(** [pieces.join(sep)] on an array of strings. *)
Fixpoint Array_join (sep : string) (pieces : list string) : string :=
  match pieces with
  | [] => EmptyString
  | [p] => p
  | p :: rest => p ++ sep ++ Array_join sep rest
  end.

(** Iterating a string yields its code points.  In UTF-8 a code point is a
    lead byte followed by its continuation bytes (10xxxxxx). *)
Definition is_continuation (c : ascii) : bool :=
  let n := nat_of_ascii c in ((128 <=? n)%nat && (n <? 192)%nat)%bool.

Fixpoint code_points (s : string) : list string :=
  match s with
  | EmptyString => []
  | String c rest =>
      let tail := code_points rest in
      match rest with
      | EmptyString => [String c EmptyString]
      | String c' _ =>
          if is_continuation c' then
            match tail with
            | p :: ps => String c p :: ps
            | [] => [String c EmptyString]
            end
          else String c EmptyString :: tail
      end
  end.

(** [String(n)] for an array length. *)
Definition Number_toString (n : nat) : string :=
  NilEmpty.string_of_uint (Nat.to_uint n).

(** ** Completions: a call returns normally or throws *)

Inductive error : Type :=
| TypeError
| RangeError.

Inductive completion (A : Type) : Type :=
| Normal (a : A)
| Throw (e : error).
Arguments Normal {A} a.
Arguments Throw {A} e.

Definition cbind {A B} (c : completion A) (k : A -> completion B) : completion B :=
  match c with
  | Normal a => k a
  | Throw e => Throw e
  end.

Notation "'let!' x ':=' c 'in' k" := (cbind c (fun x => k))
  (at level 10, x name, c at level 100, k at level 200).

Fixpoint cmap {A B} (f : A -> completion B) (l : list A) : completion (list B) :=
  match l with
  | [] => Normal []
  | x :: rest =>
      let! y := f x in
      let! ys := cmap f rest in
      Normal (y :: ys)
  end.

(** ** The ambient world: the console and the clock

    [clock w n] is what [toISOString()] gives for the [n]-th [new Date()]
    of the run; [reads] counts the readings made so far. *)

Record world : Type := mkWorld {
  console : list string;
  clock : nat -> string;
  reads : nat
}.

Definition M (A : Type) : Type := world -> completion A * world.

Definition ret {A} (a : A) : M A := fun w => (Normal a, w).

Definition bind {A B} (m : M A) (k : A -> M B) : M B :=
  fun w =>
    match m w with
    | (Normal a, w') => k a w'
    | (Throw e, w') => (Throw e, w')
    end.

Definition lift {A} (c : completion A) : M A := fun w => (c, w).

Definition try_catch {A} (body : M A) (handler : error -> M A) : M A :=
  fun w =>
    match body w with
    | (Normal a, w') => (Normal a, w')
    | (Throw e, w') => handler e w'
    end.

Notation "x <- m ;; k" := (bind m (fun x => k))
  (at level 100, m at next level, right associativity).
Notation "x <~ c ;; k" := (bind (lift c) (fun x => k))
  (at level 100, c at next level, right associativity).
Notation "m ;;; k" := (bind m (fun _ => k))
  (at level 100, right associativity).

Definition error_name (e : error) : string :=
  match e with
  | TypeError => "TypeError"
  | RangeError => "RangeError"
  end.

(** [console.log(line)] and [console.error(line)] both add a line. *)
Definition console_log (line : string) : M unit :=
  fun w => (Normal tt, mkWorld (console w ++ [line]) (clock w) (reads w)).

Definition console_error (line : string) : M unit := console_log line.

(** [console.error(label, error)]. *)
Definition console_error_with (label : string) (e : error) : M unit :=
  console_error (label ++ " " ++ error_name e).

(** [new Date().toISOString()]. *)
Definition Date_now_toISOString : M string :=
  fun w => (Normal (clock w (reads w)), mkWorld (console w) (clock w) (S (reads w))).

(** The value a call returns or throws, whatever it does to the world. *)
Definition outcome {A} (m : M A) (w : world) : completion A := fst (m w).

(** ** Values

    The payloads [handlePushEvent] receives are what [JSON.parse] returns:
    trees of objects, arrays, strings, numbers, booleans and [null]; [undefined]
    is added for absent properties and absent arguments.  No value is callable.

    - A Number is kept as its [Number::toString] image.  The sources only
      convert numbers to booleans and strings and put them in a [Set], and
      two numbers have one image exactly when [SameValueZero] holds of them
      (+0 and -0 both print [0], NaN prints [NaN]).
    - An object is the list of its own properties; a key listed twice reads
      as its first entry.
    - Every object and array of a parsed payload is a reference of its own,
      so two of them are never the same value for [SameValueZero]. *)

#[local] Set Warnings "-register-all".

Inductive value : Type :=
| VUndefined
| VNull
| VBoolean (b : bool)
| VNumber (image : string)
| VString (s : string)
| VArray (elements : list value)
| VObject (properties : list (string * value)).

Fixpoint own_property (properties : list (string * value)) (key : string) : option value :=
  match properties with
  | [] => None
  | (k, v) :: rest => if String.eqb k key then Some v else own_property rest key
  end.

Definition ToBoolean (v : value) : bool :=
  match v with
  | VUndefined | VNull => false
  | VBoolean b => b
  | VNumber image => negb (String.eqb image "0" || String.eqb image "NaN")
  | VString s => negb (is_empty s)
  | VArray _ | VObject _ => true
  end.

(** [a || b] where evaluating [b] has no effect. *)
Definition JS_or (a b : value) : value := if ToBoolean a then a else b.

(** [v.key] for the data properties the sources read ([pusher], [ref],
    [repository], [commits], [name], [full_name], [message], [added],
    [modified], [removed]).  None of them is defined by the prototype of
    objects, arrays, strings, numbers or booleans, so only an own property of
    an object is found; reading [undefined] or [null] throws. *)
Definition Get (v : value) (key : string) : completion value :=
  match v with
  | VUndefined | VNull => Throw TypeError
  | VObject properties =>
      match own_property properties key with
      | Some x => Normal x
      | None => Normal VUndefined
      end
  | VBoolean _ | VNumber _ | VString _ | VArray _ => Normal VUndefined
  end.

(** [v.replace(pattern, replacement)]: only [String.prototype] has [replace],
    and an own [replace] of a parsed object is not callable. *)
Definition call_replace (v : value) (pattern replacement : string) : completion value :=
  match v with
  | VString s => Normal (VString (String_replace s pattern replacement))
  | _ => Throw TypeError
  end.

(** [v.split(sep)], likewise; the result is an array of strings. *)
Definition call_split (v : value) (sep : ascii) : completion (list value) :=
  match v with
  | VString s => Normal (map VString (String_split sep s))
  | _ => Throw TypeError
  end.

(** [array[i]]. *)
Definition Array_at (elements : list value) (i : nat) : value :=
  nth i elements VUndefined.

(** The values [...v] spreads: the elements of an array, the code points of a
    string; nothing else in a parsed payload is iterable. *)
Definition iterate (v : value) : completion (list value) :=
  match v with
  | VArray elements => Normal elements
  | VString s => Normal (map VString (code_points s))
  | _ => Throw TypeError
  end.

(** [String(v)], as a template literal converts a substitution.

    - an array prints its elements joined by [,], with [undefined] and [null]
      printing as nothing ([Array.prototype.join]);
    - an object without an own [toString] prints as [[object Object]]; with
      one (which is not callable) [OrdinaryToPrimitive] finds no method that
      returns a primitive and throws. *)
Fixpoint ToString (v : value) : completion string :=
  match v with
  | VUndefined => Normal "undefined"
  | VNull => Normal "null"
  | VBoolean true => Normal "true"
  | VBoolean false => Normal "false"
  | VNumber image => Normal image
  | VString s => Normal s
  | VArray elements =>
      let element (x : value) : completion string :=
        match x with
        | VUndefined | VNull => Normal EmptyString
        | _ => ToString x
        end in
      (fix join (l : list value) : completion string :=
         match l with
         | [] => Normal EmptyString
         | [x] => element x
         | x :: rest =>
             let! a := element x in
             let! b := join rest in
             Normal (a ++ "," ++ b)
         end) elements
  | VObject properties =>
      match own_property properties "toString" with
      | Some _ => Throw TypeError
      | None => Normal "[object Object]"
      end
  end.

(** A template literal: literal text and substitutions, converted and
    concatenated from left to right. *)
Inductive chunk : Type :=
| Lit (text : string)
| Sub (v : value).

Fixpoint template (chunks : list chunk) : completion string :=
  match chunks with
  | [] => Normal EmptyString
  | Lit text :: rest =>
      let! tail := template rest in
      Normal (text ++ tail)
  | Sub v :: rest =>
      let! s := ToString v in
      let! tail := template rest in
      Normal (s ++ tail)
  end.

(** ** Sets *)

Definition SameValueZero (x y : value) : bool :=
  match x, y with
  | VUndefined, VUndefined => true
  | VNull, VNull => true
  | VBoolean a, VBoolean b => Bool.eqb a b
  | VNumber a, VNumber b => String.eqb a b
  | VString a, VString b => String.eqb a b
  | _, _ => false
  end.

(** A [Set] is its elements in insertion order; [add] appends a value that
    is not there yet. *)
Definition Set_has (elements : list value) (x : value) : bool :=
  existsb (SameValueZero x) elements.

Definition Set_add (elements : list value) (x : value) : list value :=
  if Set_has elements x then elements else (elements ++ [x])%list.

(** [[...new Set(array)]]. *)
Definition Set_from (array : list value) : list value :=
  fold_left Set_add array [].

(** ** The engine

    A call takes a bounded number of arguments: spreading more values than
    [argument_limit] into one call ([f(...values)]) throws a [RangeError].
    The bound is the engine's (in Node it is in the order of a hundred
    thousand and depends on the size of the stack), so it is a parameter of
    whatever spreads values into a call. *)
Class Engine : Type := {
  argument_limit : nat
}.

(** [m] returns nothing but strings. *)
Definition returns_strings (m : M value) : Prop :=
  forall w a w', m w = (Normal a, w') -> exists s, a = VString s.

(** [m] throws from [w], before any reading of the clock. *)
Definition throws_early {A} (m : M A) (w : world) : Prop :=
  exists e w', m w = (Throw e, w') /\ clock w' = clock w /\ reads w' = reads w.

End JS.
Import JS.

(* ================================================================== *)
(** * Node's [crypto] and [Buffer] *)
(* ================================================================== *)

Module Crypto.

Local Open Scope Z_scope.

(** A [Buffer] is its bytes, each in 0..255. *)
Definition Buffer : Type := list Z.

(** [Buffer.from(s)]: the UTF-8 bytes of [s]. *)
Definition Buffer_from_string (s : string) : Buffer :=
  map (fun c => Z.of_N (N_of_ascii c)) (list_ascii_of_string s).

(** ** SHA-256 (FIPS 180-4) on 32-bit words kept in [Z] *)

Definition wrap32 (x : Z) : Z := x mod 2 ^ 32.
Definition add32 (x y : Z) : Z := wrap32 (x + y).
Definition rotr (n x : Z) : Z := Z.lor (Z.shiftr x n) (wrap32 (Z.shiftl x (32 - n))).
Definition not32 (x : Z) : Z := Z.lxor x (2 ^ 32 - 1).

Definition Ch (x y z : Z) : Z := Z.lxor (Z.land x y) (Z.land (not32 x) z).
Definition Maj (x y z : Z) : Z :=
  Z.lxor (Z.lxor (Z.land x y) (Z.land x z)) (Z.land y z).
Definition Sigma0 (x : Z) : Z := Z.lxor (Z.lxor (rotr 2 x) (rotr 13 x)) (rotr 22 x).
Definition Sigma1 (x : Z) : Z := Z.lxor (Z.lxor (rotr 6 x) (rotr 11 x)) (rotr 25 x).
Definition sigma0 (x : Z) : Z := Z.lxor (Z.lxor (rotr 7 x) (rotr 18 x)) (Z.shiftr x 3).
Definition sigma1 (x : Z) : Z := Z.lxor (Z.lxor (rotr 17 x) (rotr 19 x)) (Z.shiftr x 10).

(** The round constants and the initial hash value are the first 32 bits of
    the fractional parts of the cube roots and of the square roots of the
    first primes; they are computed from that definition. *)
Definition root_fraction_bits (k p : Z) : Z :=
  let target := p * 2 ^ (32 * k) in
  let refine (r : Z) (bit : nat) : Z :=
    let candidate := r + 2 ^ Z.of_nat bit in
    if candidate ^ k <=? target then candidate else r in
  wrap32 (fold_left refine (rev (seq 0 36)) 0).

Definition first_primes : list Z :=
  [2; 3; 5; 7; 11; 13; 17; 19; 23; 29; 31; 37; 41; 43; 47; 53;
   59; 61; 67; 71; 73; 79; 83; 89; 97; 101; 103; 107; 109; 113; 127; 131;
   137; 139; 149; 151; 157; 163; 167; 173; 179; 181; 191; 193; 197; 199; 211; 223;
   227; 229; 233; 239; 241; 251; 257; 263; 269; 271; 277; 281; 283; 293; 307; 311].

Definition round_constants : list Z :=
  Eval vm_compute in map (root_fraction_bits 3) first_primes.

Record hash_state : Type := mkHash {
  h_a : Z; h_b : Z; h_c : Z; h_d : Z; h_e : Z; h_f : Z; h_g : Z; h_h : Z
}.

Definition initial_hash : hash_state :=
  Eval vm_compute in
    let r := root_fraction_bits 2 in
    mkHash (r 2) (r 3) (r 5) (r 7) (r 11) (r 13) (r 17) (r 19).

(** Padding: the byte 0x80, zero bytes up to 56 modulo 64, and the length in
    bits as a 64-bit big-endian integer. *)
Definition big_endian (width : nat) (x : Z) : list Z :=
  map (fun i => Z.shiftr x (8 * Z.of_nat i) mod 256) (rev (seq 0 width)).

Definition pad (message : Buffer) : Buffer :=
  let len := Z.of_nat (List.length message) in
  let zeros := Z.to_nat ((55 - len) mod 64) in
  (message ++ [128] ++ repeat 0 zeros ++ big_endian 8 (8 * len))%list.

Fixpoint words_of (n : nat) (bytes : list Z) : list Z :=
  match n, bytes with
  | S n', b0 :: b1 :: b2 :: b3 :: rest =>
      (b0 * 2 ^ 24 + b1 * 2 ^ 16 + b2 * 2 ^ 8 + b3) :: words_of n' rest
  | _, _ => []
  end.

Definition schedule (block_words : list Z) : list Z :=
  fold_left
    (fun W t =>
       let back (i : nat) := nth (t - i) W 0 in
       (W ++ [add32 (add32 (add32 (sigma1 (back 2%nat)) (back 7%nat))
                           (sigma0 (back 15%nat))) (back 16%nat)])%list)
    (seq 16 48) block_words.

Definition round (s : hash_state) (kw : Z * Z) : hash_state :=
  let (k, w) := kw in
  let t1 := add32 (add32 (add32 (add32 (h_h s) (Sigma1 (h_e s)))
                                (Ch (h_e s) (h_f s) (h_g s))) k) w in
  let t2 := add32 (Sigma0 (h_a s)) (Maj (h_a s) (h_b s) (h_c s)) in
  mkHash (add32 t1 t2) (h_a s) (h_b s) (h_c s) (add32 (h_d s) t1) (h_e s) (h_f s) (h_g s).

Definition compress (s : hash_state) (block : list Z) : hash_state :=
  let W := schedule (words_of 16 block) in
  let r := fold_left round (combine round_constants W) s in
  mkHash (add32 (h_a s) (h_a r)) (add32 (h_b s) (h_b r))
         (add32 (h_c s) (h_c r)) (add32 (h_d s) (h_d r))
         (add32 (h_e s) (h_e r)) (add32 (h_f s) (h_f r))
         (add32 (h_g s) (h_g r)) (add32 (h_h s) (h_h r)).

Fixpoint absorb (blocks : nat) (s : hash_state) (bytes : list Z) : hash_state :=
  match blocks with
  | O => s
  | S n => absorb n (compress s (firstn 64 bytes)) (skipn 64 bytes)
  end.

Definition sha256 (message : Buffer) : Buffer :=
  let padded := pad message in
  let s := absorb (List.length padded / 64) initial_hash padded in
  List.concat (map (big_endian 4)
              [h_a s; h_b s; h_c s; h_d s; h_e s; h_f s; h_g s; h_h s]).

(** ** HMAC (RFC 2104) with SHA-256, block size 64 *)

Definition hmac_sha256 (key message : Buffer) : Buffer :=
  let key0 := if (64 <? List.length key)%nat then sha256 key else key in
  let block := (key0 ++ repeat 0 (64 - List.length key0)%nat)%list in
  let inner := map (fun b => Z.lxor b 54) block in
  let outer := map (fun b => Z.lxor b 92) block in
  sha256 (outer ++ sha256 (inner ++ message))%list.

(** ** Hexadecimal, lower case *)

Definition hex_digit (d : Z) : ascii :=
  if d <? 10 then ascii_of_N (Z.to_N (48 + d)) else ascii_of_N (Z.to_N (87 + d)).

Fixpoint hex (bytes : Buffer) : string :=
  match bytes with
  | [] => EmptyString
  | b :: rest => String (hex_digit (b / 16)) (String (hex_digit (b mod 16)) (hex rest))
  end.

(** [crypto.createHmac('sha256', key).update(data, 'utf-8').digest('hex')]
    for a string key and string data. *)
Definition hmac_sha256_hex (key data : string) : string :=
  hex (hmac_sha256 (Buffer_from_string key) (Buffer_from_string data)).

(** [Buffer.from(x)] for a header value: [null] (no such header) is not an
    accepted argument. *)
Definition Buffer_from (x : option string) : completion Buffer :=
  match x with
  | Some s => Normal (Buffer_from_string s)
  | None => Throw TypeError
  end.

(** [crypto.timingSafeEqual(a, b)]: a [RangeError] when the byte lengths
    differ; otherwise every pair of bytes is combined, whatever the outcome
    of the pairs before it. *)
Definition timingSafeEqual (a b : Buffer) : completion bool :=
  if (List.length a =? List.length b)%nat then
    Normal (fold_left (fun acc xy => Z.lor acc (Z.lxor (fst xy) (snd xy))) (combine a b) 0 =? 0)
  else Throw RangeError.

End Crypto.

(* ================================================================== *)
(** * app/api/webhook/github/route.js *)
(* ================================================================== *)

Module Route.
Import Crypto.

(** Lines 62-71: the body of the [try]. *)
Definition verifyWebhook_try (signature : option string) (digest : string) : M bool :=
  (* timingSafeEqual requires Buffers of same length *)
  sigBuffer <~ Buffer_from signature ;;
  digestBuffer <~ Buffer_from (Some digest) ;;
  if negb (List.length sigBuffer =? List.length digestBuffer)%nat then
    ret false
  else
    lift (timingSafeEqual sigBuffer digestBuffer).

(** [verifyWebhook(rawBody, signature)].  [rawBody] is the text of the
    request body as [req.text()] gave it, before any parsing.
    [GITHUB_WEBHOOK_SECRET] is [process.env.GITHUB_WEBHOOK_SECRET]: [None]
    when the variable is unset.  [signature] is what
    [req.headers.get('x-hub-signature-256')] gave: [None] when the request
    has no such header. *)
Definition verifyWebhook (GITHUB_WEBHOOK_SECRET : option string)
    (rawBody : string) (signature : option string) : M bool :=
  match GITHUB_WEBHOOK_SECRET with
  | None | Some EmptyString =>
      console_error "GITHUB_WEBHOOK_SECRET is not set" ;;;
      ret false
  | Some secret =>
      let digest := "sha256=" ++ hmac_sha256_hex secret rawBody in
      try_catch (verifyWebhook_try signature digest) (fun _ => ret false)
  end.

End Route.

(* ================================================================== *)
(** * JSON.stringify *)
(* ================================================================== *)

Module JSON.

Definition double_quote : ascii := "034"%char.
Definition backslash : ascii := "092"%char.

Definition hex4 (n : nat) : string :=
  let digit (d : nat) := Crypto.hex_digit (Z.of_nat d) in
  String (digit (n / 4096 mod 16)) (String (digit (n / 256 mod 16))
    (String (digit (n / 16 mod 16)) (String (digit (n mod 16)) EmptyString))).

(** [QuoteJSONString] without its quotes: the two-character escapes, [\u00xx]
    for the other control characters, every other character as it is. *)
Fixpoint escape (s : string) : string :=
  match s with
  | EmptyString => EmptyString
  | String c rest =>
      let n := nat_of_ascii c in
      let short (letter : string) := String backslash letter in
      (if (n =? 34)%nat then short (String double_quote EmptyString)
       else if (n =? 92)%nat then short (String backslash EmptyString)
       else if (n =? 8)%nat then short "b"
       else if (n =? 12)%nat then short "f"
       else if (n =? 10)%nat then short "n"
       else if (n =? 13)%nat then short "r"
       else if (n =? 9)%nat then short "t"
       else if (n <? 32)%nat then short ("u" ++ hex4 n)
       else String c EmptyString) ++ escape rest
  end.

Definition quote (s : string) : string :=
  String double_quote (escape s ++ String double_quote EmptyString).

(** The properties of an object, each key once (its first entry). *)
Fixpoint own_entries (seen : list string) (properties : list (string * value))
  : list (string * value) :=
  match properties with
  | [] => []
  | (k, v) :: rest =>
      if existsb (String.eqb k) seen then own_entries seen rest
      else (k, v) :: own_entries (k :: seen) rest
  end.

Definition is_finite (image : string) : bool :=
  negb (String.eqb image "NaN" || String.eqb image "Infinity"
        || String.eqb image "-Infinity").

(** [JSON.stringify(v)]: [None] is [undefined].  No value of a parsed payload
    has a callable [toJSON].  The properties of an object are written in the
    order of its list, which is taken to be the order [JSON.stringify]
    enumerates them in; a property whose value is [undefined] is left out,
    an array element that is [undefined] is written [null]. *)
Fixpoint stringify (v : value) : option string :=
  match v with
  | VUndefined => None
  | VNull => Some "null"
  | VBoolean true => Some "true"
  | VBoolean false => Some "false"
  | VNumber image => Some (if is_finite image then image else "null")
  | VString s => Some (quote s)
  | VArray elements =>
      let items :=
        (fix go (l : list value) : list string :=
           match l with
           | [] => []
           | x :: rest =>
               match stringify x with
               | Some t => t
               | None => "null"
               end :: go rest
           end) elements in
      Some ("[" ++ Array_join "," items ++ "]")
  | VObject properties =>
      let members :=
        (fix go (seen : list string) (l : list (string * value)) : list string :=
           match l with
           | [] => []
           | (k, x) :: rest =>
               if existsb (String.eqb k) seen then go seen rest
               else match stringify x with
                    | Some t => (quote k ++ ":" ++ t) :: go (k :: seen) rest
                    | None => go (k :: seen) rest
                    end
           end) [] properties in
      Some ("{" ++ Array_join "," members ++ "}")
  end.

End JSON.

(* ================================================================== *)
(** * services/github-webhook.js *)
(* ================================================================== *)

Module Service.
Import Crypto.

(** [verifyWebhook(payload, signature)].  [GITHUB_WEBHOOK_SECRET] is the
    constant imported from [lib/constants], a file that is not part of the
    sources at hand: it is a parameter here, [None] standing for [undefined]. *)
Definition verifyWebhook (GITHUB_WEBHOOK_SECRET : option string)
    (payload : value) (signature : option string) : M bool :=
  try_catch
    (key <~ (match GITHUB_WEBHOOK_SECRET with
             | Some secret => Normal secret
             | None => Throw TypeError
             end) ;;
     data <~ (match JSON.stringify payload with
              | Some text => Normal text
              | None => Throw TypeError
              end) ;;
     let calculated := "sha256=" ++ hmac_sha256_hex key data in
     calculatedBuffer <~ Buffer_from (Some calculated) ;;
     signatureBuffer <~ Buffer_from signature ;;
     lift (timingSafeEqual calculatedBuffer signatureBuffer))
    (fun error =>
       console_error_with "Webhook verification error:" error ;;;
       ret false).

(** ** [handlePushEvent] *)

Definition newline : ascii := "010"%char.

(** Line 63: [formatFileList], and the function it maps over the files. *)
Definition file_bullet (f : value) : completion string :=
  template [Lit "  - "; Sub f].

Definition formatFileList (files : list value) : completion string :=
  match files with
  | [] => Normal "  - None"
  | _ :: _ =>
      let! lines := cmap file_bullet files in
      Normal (Array_join LF lines)
  end.

(** Lines 43-46: the list of commit messages, and the function mapped over
    the first two commits. *)
Definition commit_bullet (commit : value) : completion string :=
  let! commit_message := Get commit "message" in
  let! message :=
    if ToBoolean commit_message then
      let! parts := call_split commit_message newline in
      Normal (Array_at parts 0)
    else Normal (VString "No message") in
  template [Lit "  - "; Sub message].

Definition commitMessages_of (commits : list value) : completion string :=
  let! lines := cmap commit_bullet (firstn 2 commits) in
  let joined := Array_join LF lines in
  Normal (if is_empty joined then "  - None" else joined).

(** Lines 49-56: the three arrays the [forEach] fills. *)
Record file_lists : Type := mkFiles {
  addedFiles : list value;
  modifiedFiles : list value;
  removedFiles : list value
}.

Section Formatter.
Context {engine : Engine}.

(** [if (field) target.push(...field)]: the values of [field] are the
    arguments of one call of [push]. *)
Definition push_spread (target : list value) (field : value) : completion (list value) :=
  if ToBoolean field then
    let! items := iterate field in
    if (List.length items <=? argument_limit)%nat then Normal (target ++ items)%list
    else Throw RangeError
  else Normal target.

Definition collect (files : file_lists) (commit : value) : completion file_lists :=
  let! added := Get commit "added" in
  let! addedFiles' := push_spread (addedFiles files) added in
  let! modified := Get commit "modified" in
  let! modifiedFiles' := push_spread (modifiedFiles files) modified in
  let! removed := Get commit "removed" in
  let! removedFiles' := push_spread (removedFiles files) removed in
  Normal (mkFiles addedFiles' modifiedFiles' removedFiles').

Fixpoint forEach (commits : list value) (files : file_lists) : completion file_lists :=
  match commits with
  | [] => Normal files
  | commit :: rest =>
      let! files' := collect files commit in
      forEach rest files'
  end.

(** Lines 58-60: [[...new Set(files)].slice(0, 3)]. *)
Definition dedupe_and_limit (files : list value) : list value :=
  firstn 3 (Set_from files).

(** Lines 69-70 and 92: the time stamp. *)
Definition timestamp_now : M string :=
  iso <- Date_now_toISOString ;;
  ret (String_slice0 (String_replace iso "T" " ") 19 ++ " UTC").

Definition rule : string := "──────────────────".

(** Lines 73-89: the message, from the values its template substitutes. *)
Definition message_template (pusher_name repoFullName branch : value)
    (commitCount : nat) (commitMessages : string) (topCommitMessage : value)
    (addedText modifiedText removedText timestamp : string) : list chunk :=
  [ Lit "🚀 *New Push Alert* 🚀"; Lit LF;
    Lit rule; Lit LF; Lit LF;
    Lit "👤 *Pusher*: @"; Sub pusher_name; Lit LF; Lit LF;
    Lit "📦 *Repository*: "; Sub repoFullName; Lit LF; Lit LF;
    Lit "🌿 *Branch*: "; Sub branch; Lit LF; Lit LF;
    Lit "🔢 *Commits*: "; Lit (Number_toString commitCount);
    Lit (if (commitCount =? 0)%nat then " (No commits found)" else EmptyString);
    Lit LF; Lit LF;
    Lit "📜 *Commit Messages*:"; Lit LF; Lit commitMessages; Lit LF; Lit LF;
    Lit "📝 *Top Commit*: "; Sub topCommitMessage; Lit LF; Lit LF;
    Lit addedText; Lit LF; Lit LF;
    Lit modifiedText; Lit LF; Lit LF;
    Lit removedText; Lit LF; Lit LF;
    Lit "🕒 *Pushed At*: "; Lit timestamp; Lit LF;
    Lit rule; Lit LF; Lit LF ].

(** Lines 29-89: the body of the [try]. *)
Definition handlePushEvent_try (payload : value) : M value :=
  (* Default values for edge cases *)
  payload_pusher <~ Get payload "pusher" ;;
  let pusher := JS_or payload_pusher (VObject [("name", VString "Unknown")]) in
  payload_ref <~ Get payload "ref" ;;
  let ref := JS_or payload_ref (VString "refs/heads/unknown") in
  payload_repository <~ Get payload "repository" ;;
  let repository :=
    JS_or payload_repository
          (VObject [("name", VString "unknown-repo");
                    ("full_name", VString "unknown/unknown-repo")]) in
  payload_commits <~ Get payload "commits" ;;
  let commits := match payload_commits with VArray elements => elements | _ => [] end in
  (* Extract details *)
  replaced <~ call_replace ref "refs/heads/" EmptyString ;;
  let branch := JS_or replaced (VString "unknown") in
  let commitCount := List.length commits in
  pusher_name <~ Get pusher "name" ;;
  line <~ template [Lit "Processing "; Lit (Number_toString commitCount);
                    Lit " commits for push by @"; Sub pusher_name;
                    Lit " to "; Sub branch] ;;
  console_log line ;;;
  full_name <~ Get repository "full_name" ;;
  repoFullName <~ (if ToBoolean full_name then Normal full_name
                   else let! name := Get repository "name" in
                        Normal (JS_or name (VString "unknown/unknown-repo"))) ;;
  let first := Array_at commits 0 in
  has_message <~ (if ToBoolean first then Get first "message" else Normal first) ;;
  topCommitMessage <~ (if ToBoolean has_message then
                         let! first_message := Get first "message" in
                         let! parts := call_split first_message newline in
                         Normal (Array_at parts 0)
                       else Normal (VString "No commit message provided")) ;;
  (* List exactly two commit messages *)
  commitMessages <~ commitMessages_of commits ;;
  (* Aggregate file changes (limit to 3 per type) *)
  files <~ forEach commits (mkFiles [] [] []) ;;
  (* Deduplicate and limit *)
  let addedFiles := dedupe_and_limit (addedFiles files) in
  let modifiedFiles := dedupe_and_limit (modifiedFiles files) in
  let removedFiles := dedupe_and_limit (removedFiles files) in
  (* Format file lists *)
  addedList <~ formatFileList addedFiles ;;
  let addedText := "➕ *Added*:" ++ LF ++ addedList in
  modifiedList <~ formatFileList modifiedFiles ;;
  let modifiedText := "✏️ *Modified*:" ++ LF ++ modifiedList in
  removedList <~ formatFileList removedFiles ;;
  let removedText := "🗑️ *Removed*:" ++ LF ++ removedList in
  (* Generate timestamp *)
  timestamp <- timestamp_now ;;
  (* Detailed message *)
  pusher_name' <~ Get pusher "name" ;;
  message <~ template (message_template pusher_name' repoFullName branch commitCount
                         commitMessages topCommitMessage
                         addedText modifiedText removedText timestamp) ;;
  ret (VString message).

(** Lines 90-94: the [catch]. *)
Definition handlePushEvent_catch (error : error) : M value :=
  console_error_with "Error parsing push event:" error ;;;
  timestamp <- timestamp_now ;;
  ret (VString ("⚠️ *Push processing failed* ⚠️" ++ LF ++ "🕒 *At*: " ++ timestamp)).

Definition handlePushEvent (payload : value) : M value :=
  try_catch (handlePushEvent_try payload) handlePushEvent_catch.

End Formatter.

End Service.

(* ================================================================== *)
(** * app/api/webhook/github/route.js: the request handler *)
(* ================================================================== *)

Module Handler.

(** What [POST] reads of a request: the two headers ([headers.get] gives
    [null], here [None], for a header that is not there) and the text of the
    body. *)
Record Request : Type := mkRequest {
  x_hub_signature_256 : option string;
  x_github_event : option string;
  text : string
}.

(** [new Response(body, { status })]. *)
Record Response : Type := mkResponse {
  response_body : string;
  status : nat
}.

(** The result object of [sendPushAlertAction]: [{ success, error }]. *)
Record SendResult : Type := mkSendResult {
  success : bool;
  send_error : option string
}.

(** What the [try] of [POST] can catch: an error of a built-in, the
    [SyntaxError] of [JSON.parse], the [Error] of line 99, or whatever a
    rejected delivery threw. *)
Inductive thrown : Type :=
| Builtin (e : error)
| SyntaxError
| Error (message : string).

Definition thrown_text (t : thrown) : string :=
  match t with
  | Builtin e => error_name e
  | SyntaxError => "SyntaxError"
  | Error message => "Error: " ++ message
  end.

(** [!signature] for a header value. *)
Definition header_is_falsy (h : option string) : bool :=
  match h with
  | None => true
  | Some s => is_empty s
  end.

(** [event !== 'push']. *)
Definition is_not_push (event : option string) : bool :=
  match event with
  | Some name => negb (String.eqb name "push")
  | None => true
  end.

Section POST.

Context {engine : Engine}.

(** [process.env.GITHUB_WEBHOOK_SECRET]. *)
Variable GITHUB_WEBHOOK_SECRET : option string.

(** [JSON.parse]: [None] when it throws its [SyntaxError]. *)
Variable JSON_parse : string -> option value.

(** Modelled from the spec: [sendPushAlertAction] of [action/telegram], a file
    that is not among the sources.  It takes the formatted text and reports
    [{success, error?}]; awaiting it may also throw. *)
Variable sendPushAlertAction : value -> world -> (SendResult + thrown) * world.

(** Lines 78-102: the body of the [try]; [inr] is what it throws. *)
Definition POST_try (req : Request) : world -> (Response + thrown) * world :=
  fun w =>
    let signature := x_hub_signature_256 req in
    let rawBody := text req in (* Get raw body as string *)
    (* Verify signature *)
    let (verified, w1) :=
      if header_is_falsy signature then (Normal false, w)
      else Route.verifyWebhook GITHUB_WEBHOOK_SECRET rawBody signature w in
    match verified with
    | Throw e => (inr (Builtin e), w1)
    | Normal false => (inl (mkResponse "Invalid signature" 401), w1)
    | Normal true =>
        match JSON_parse rawBody with
        | None => (inr SyntaxError, w1)
        | Some payload =>
            let event := x_github_event req in
            if is_not_push event then (inl (mkResponse "Ignored event" 200), w1)
            else
              (* Process push event and send Telegram alert *)
              match Service.handlePushEvent payload w1 with
              | (Throw e, w2) => (inr (Builtin e), w2)
              | (Normal message, w2) =>
                  match sendPushAlertAction message w2 with
                  | (inr t, w3) => (inr t, w3)
                  | (inl result, w3) =>
                      if negb (success result) then
                        (inr (Error (match send_error result with
                                     | Some reason =>
                                         if is_empty reason
                                         then "Failed to send Telegram alert"
                                         else reason
                                     | None => "Failed to send Telegram alert"
                                     end)), w3)
                      else (inl (mkResponse "OK" 200), w3)
                  end
              end
        end
    end.

(** Lines 103-106: the [catch]. *)
Definition POST_catch (error : thrown) : M Response :=
  console_error ("Webhook error: " ++ thrown_text error) ;;;
  ret (mkResponse "Internal Server Error" 500).

Definition POST (req : Request) : M Response :=
  fun w =>
    match POST_try req w with
    | (inl response, w') => (Normal response, w')
    | (inr error, w') => POST_catch error w'
    end.

End POST.

(** The request carries the signature of its body under the secret, and the
    secret is set and not empty. *)
Definition authentic (secret : option string) (req : Request) : bool :=
  match secret, x_hub_signature_256 req with
  | Some key, Some signature =>
      negb (is_empty key)
      && String.eqb signature ("sha256=" ++ Crypto.hmac_sha256_hex key (text req))
  | _, _ => false
  end.

(** The world after [console.error] of a line. *)
Definition logged (w : world) (line : string) : world :=
  mkWorld (console w ++ [line]) (clock w) (reads w).

End Handler.

(* ================================================================== *)
(** * Push payloads of the documented shape *)
(* ================================================================== *)

(** The subset of GitHub's push event the formatter reads: every field may
    be absent, a present one has the documented type.  [to_value] is the
    value [JSON.parse] returns for such a payload. *)

Module Payload.

Record Commit : Type := mkCommit {
  message : option string;
  added : option (list string);
  modified : option (list string);
  removed : option (list string)
}.

Record Pusher : Type := mkPusher {
  pusher_name : option string
}.

Record Repository : Type := mkRepository {
  repo_name : option string;
  repo_full_name : option string
}.

Record PushPayload : Type := mkPayload {
  pusher : option Pusher;
  ref : option string;
  repository : option Repository;
  commits : option (list Commit)
}.

Definition property {A} (key : string) (encode : A -> value) (x : option A)
  : list (string * value) :=
  match x with
  | Some a => [(key, encode a)]
  | None => []
  end.

(** What reading an optional field gives. *)
Definition optional {A} (encode : A -> value) (x : option A) : value :=
  match x with
  | Some a => encode a
  | None => VUndefined
  end.

Definition strings_value (l : list string) : value := VArray (map VString l).

Definition commit_value (c : Commit) : value :=
  VObject (property "message" VString (message c)
           ++ property "added" strings_value (added c)
           ++ property "modified" strings_value (modified c)
           ++ property "removed" strings_value (removed c))%list.

Definition pusher_value (p : Pusher) : value :=
  VObject (property "name" VString (pusher_name p)).

Definition repository_value (r : Repository) : value :=
  VObject (property "name" VString (repo_name r)
           ++ property "full_name" VString (repo_full_name r))%list.

Definition to_value (p : PushPayload) : value :=
  VObject (property "pusher" pusher_value (pusher p)
           ++ property "ref" VString (ref p)
           ++ property "repository" repository_value (repository p)
           ++ property "commits" (fun l => VArray (map commit_value l)) (commits p))%list.

(** The commits of a payload, none when the field is absent. *)
Definition commit_list (p : PushPayload) : list Commit :=
  match commits p with
  | Some l => l
  | None => []
  end.

Definition files_of (field : Commit -> option (list string)) (c : Commit) : list string :=
  match field c with
  | Some l => l
  | None => []
  end.

(** Every file array of the commit can be spread into one call. *)
Definition commit_fits {engine : Engine} (c : Commit) : bool :=
  (List.length (files_of added c) <=? argument_limit)%nat
  && (List.length (files_of modified c) <=? argument_limit)%nat
  && (List.length (files_of removed c) <=? argument_limit)%nat.

(** Every file array of every commit of the payload can. *)
Definition fits {engine : Engine} (p : PushPayload) : bool :=
  forallb commit_fits (commit_list p).

(** A file field concatenated across all the commits. *)
Definition all_files (field : Commit -> option (list string)) (l : list Commit) : list string :=
  List.concat (map (files_of field) l).

End Payload.

(* ================================================================== *)
(** * What the message is expected to hold *)
(* ================================================================== *)

(** What the message holds for a payload of the documented shape, part by
    part.  These definitions do not run the code: they are what the code is
    compared with.  They follow the description of the formatter, except
    where the code was found to do otherwise (the pusher without a name, the
    branch, the commit without a message), which the comments say. *)

Module Expected.
Import Payload.

(** The text of a string up to its first line feed. *)
Fixpoint first_line (s : string) : string :=
  match s with
  | EmptyString => EmptyString
  | String c rest =>
      if Ascii.eqb c Service.newline then EmptyString else String c (first_line rest)
  end.

(** [s] without [prefix] in front when it starts with it, [s] otherwise. *)
Definition strip_prefix (prefix s : string) : string :=
  if String.prefix prefix s then
    substring (length prefix) (length s - length prefix) s
  else s.

(** [t] is [s] without its first occurrence of [pattern]; [s] itself when
    [pattern] does not occur in it. *)
Definition first_removed (pattern s t : string) : Prop :=
  (exists before after,
      s = before ++ pattern ++ after
      /\ t = before ++ after
      /\ forall before' after',
           s = before' ++ pattern ++ after' -> length before <= length before')
  \/ (t = s /\ forall before after, s <> before ++ pattern ++ after).

(** Duplicates removed, each value staying where it first occurs. *)
Fixpoint dedupe (l : list string) : list string :=
  match l with
  | [] => []
  | x :: rest => x :: filter (fun y => negb (String.eqb y x)) (dedupe rest)
  end.

(** The position at which [x] first occurs in [l] ([length l] when it does
    not occur). *)
Fixpoint first_index (x : string) (l : list string) : nat :=
  match l with
  | [] => 0
  | y :: rest => if String.eqb y x then 0 else S (first_index x rest)
  end.

(** [x] first occurs in [l] before [y] does. *)
Definition earlier (l : list string) (x y : string) : Prop :=
  first_index x l < first_index y l.

Definition bullet (text : string) : string := "  - " ++ text.

(** Texts one per line: a line feed between two of them, none at the end. *)
Fixpoint lines (texts : list string) : string :=
  match texts with
  | [] => EmptyString
  | t :: rest =>
      match rest with
      | [] => t
      | _ :: _ => t ++ LF ++ lines rest
      end
  end.

(** A bulleted list, one entry per line, or the placeholder. *)
Definition bullets_or_none (entries : list string) : string :=
  match entries with
  | [] => "  - None"
  | _ :: _ => lines (map bullet entries)
  end.

Definition non_empty (s : option string) : option string :=
  match s with
  | Some text => if is_empty text then None else Some text
  | None => None
  end.

Definition or_else (s : option string) (default : string) : string :=
  match s with
  | Some text => text
  | None => default
  end.

(** The message, given the text of each of its parts. *)
Record parts : Type := mkParts {
  part_pusher : string;
  part_repository : string;
  part_branch : string;
  part_count : nat;
  part_messages : string;
  part_top : string;
  part_added : string;
  part_modified : string;
  part_removed : string;
  part_time : string
}.

Definition message_text (p : parts) : string :=
  "🚀 *New Push Alert* 🚀" ++ LF
  ++ Service.rule ++ LF ++ LF
  ++ "👤 *Pusher*: @" ++ part_pusher p ++ LF ++ LF
  ++ "📦 *Repository*: " ++ part_repository p ++ LF ++ LF
  ++ "🌿 *Branch*: " ++ part_branch p ++ LF ++ LF
  ++ "🔢 *Commits*: " ++ Number_toString (part_count p)
  ++ (match part_count p with O => " (No commits found)" | S _ => EmptyString end)
  ++ LF ++ LF
  ++ "📜 *Commit Messages*:" ++ LF ++ part_messages p ++ LF ++ LF
  ++ "📝 *Top Commit*: " ++ part_top p ++ LF ++ LF
  ++ "➕ *Added*:" ++ LF ++ part_added p ++ LF ++ LF
  ++ "✏️ *Modified*:" ++ LF ++ part_modified p ++ LF ++ LF
  ++ "🗑️ *Removed*:" ++ LF ++ part_removed p ++ LF ++ LF
  ++ "🕒 *Pushed At*: " ++ part_time p ++ LF
  ++ Service.rule ++ LF ++ LF.

(** [YYYY-MM-DD HH:MM:SS UTC] from the ISO rendering of the clock. *)
Definition time_text (iso : string) : string :=
  String_slice0 (String_replace iso "T" " ") 19 ++ " UTC".

Definition failure_text (iso : string) : string :=
  "⚠️ *Push processing failed* ⚠️" ++ LF ++ "🕒 *At*: " ++ time_text iso.

(** The pusher as the code shows it: the default stands in for an absent
    [pusher] only. *)
Definition pusher_text (p : PushPayload) : string :=
  match pusher p with
  | None => "Unknown"
  | Some who => or_else (pusher_name who) "undefined"
  end.

Definition repository_text (p : PushPayload) : string :=
  match repository p with
  | None => "unknown/unknown-repo"
  | Some r =>
      match non_empty (repo_full_name r) with
      | Some text => text
      | None => or_else (non_empty (repo_name r)) "unknown/unknown-repo"
      end
  end.

(** The branch as the code shows it: the first occurrence of [refs/heads/]
    is removed, wherever it stands. *)
Definition branch_text (p : PushPayload) : string :=
  let r := or_else (non_empty (ref p)) "refs/heads/unknown" in
  let b := String_replace r "refs/heads/" EmptyString in
  if is_empty b then "unknown" else b.

(** What is shown of one commit's message: its first line, or the
    placeholder when the commit has no message or an empty one. *)
Definition message_shown (placeholder : string) (c : Commit) : string :=
  match non_empty (message c) with
  | Some text => first_line text
  | None => placeholder
  end.

Definition messages_text (l : list Commit) : string :=
  bullets_or_none (map (message_shown "No message") (firstn 2 l)).

Definition top_text (l : list Commit) : string :=
  match l with
  | c :: _ => message_shown "No commit message provided" c
  | [] => "No commit message provided"
  end.

Definition files_shown (field : Commit -> option (list string)) (l : list Commit)
  : list string :=
  firstn 3 (dedupe (all_files field l)).

Definition files_text (field : Commit -> option (list string)) (l : list Commit) : string :=
  bullets_or_none (files_shown field l).

(** The signature GitHub sends for [body] under [secret]. *)
Definition expected_signature (secret body : string) : string :=
  "sha256=" ++ Crypto.hmac_sha256_hex secret body.

(** The branch read as a prefix strip: [refs/heads/] is taken off the front
    of the ref, and an empty rest becomes [unknown]. *)
Definition prefix_stripped_branch (r : string) : string :=
  let b := strip_prefix "refs/heads/" r in
  if is_empty b then "unknown" else b.

(** The commit messages read as first lines only: the first line of the
    message of each of the first two commits. *)
Definition first_lines_text (l : list Commit) : string :=
  bullets_or_none (map (fun c => first_line (or_else (message c) EmptyString)) (firstn 2 l)).

(** The value of [pusher.name] after the default of line 30. *)
Definition pusher_name_value (p : PushPayload) : value :=
  match pusher p with
  | None => VString "Unknown"
  | Some who => optional VString (pusher_name who)
  end.

(** The line logged on line 38. *)
Definition log_line (p : PushPayload) : string :=
  "Processing " ++ Number_toString (List.length (commit_list p))
  ++ " commits for push by @" ++ pusher_text p ++ " to " ++ branch_text p.

Definition parts_of (p : PushPayload) (iso : string) : parts :=
  let l := commit_list p in
  mkParts (pusher_text p) (repository_text p) (branch_text p) (List.length l)
          (messages_text l) (top_text l)
          (files_text added l) (files_text modified l) (files_text removed l)
          (time_text iso).

End Expected.

(* ================================================================== *)
(** * Sample data *)
(* ================================================================== *)

Module Sample.
Import Payload.

Definition iso : string := "2024-05-06T07:08:09.123Z".

(** A run that starts with an empty console at a fixed time. *)
Definition world0 : world := mkWorld [] (fun _ => iso) 0.

Definition secret : string := "s3cret".

(** An engine whose calls take a hundred thousand arguments. *)
Definition engine : Engine := {| argument_limit := 100 * 1000 |}.

Definition dq : string := String JSON.double_quote EmptyString.

(** The body [{"ref": "refs/heads/main"}], a space after the colon. *)
Definition rawBody : string :=
  "{" ++ dq ++ "ref" ++ dq ++ ": " ++ dq ++ "refs/heads/main" ++ dq ++ "}".

(** [JSON.parse(rawBody)]. *)
Definition parsedBody : value := VObject [("ref", VString "refs/heads/main")].

(** [JSON.stringify(parsedBody)]: no space after the colon. *)
Definition reserialized : string :=
  "{" ++ dq ++ "ref" ++ dq ++ ":" ++ dq ++ "refs/heads/main" ++ dq ++ "}".

Definition commit_with (text : string) : Commit := mkCommit (Some text) None None None.

Definition time : string := "2024-05-06 07:08:09 UTC".

(** The parts of the message for a payload without pusher, repository,
    branch or files. *)
Definition parts_with (branch : string) (count : nat) (messages top : string)
  : Expected.parts :=
  Expected.mkParts "Unknown" "unknown/unknown-repo" branch count messages top
                   "  - None" "  - None" "  - None" time.

Definition commit_adding (files : list string) : Commit :=
  mkCommit None (Some files) None None.

Definition commit_changing (a m r : list string) : Commit :=
  mkCommit None (Some a) (Some m) (Some r).

End Sample.

(* ================================================================== *)
(** * Properties *)
(* ================================================================== *)

Import Crypto Payload Expected.

(** ** The built-ins on known inputs *)

Example round_constants_ends :
  hd 0%Z round_constants = 0x428a2f98%Z /\ last round_constants 0%Z = 0xc67178f2%Z.
Proof. split; reflexivity. Qed.

Example sha256_of_abc :
  hex (sha256 (Buffer_from_string "abc"))
  = "ba7816bf8f01cfea414140de5dae2223b00361a396177a9cb410ff61f20015ad".
Proof. vm_compute. reflexivity. Qed.

(** RFC 4231, test case 2. *)
Example hmac_sha256_of_rfc4231_case_2 :
  hmac_sha256_hex "Jefe" "what do ya want for nothing?"
  = "5bdcc146bf60754e6a042426089575c75a003f089d2739839dec58b964ec3843".
Proof. vm_compute. reflexivity. Qed.

(** A key longer than a block is hashed first (RFC 4231, test case 6). *)
Example hmac_sha256_of_rfc4231_case_6 :
  hex (hmac_sha256 (repeat 0xaa%Z 131)
         (Buffer_from_string "Test Using Larger Than Block-Size Key - Hash Key First"))
  = "60e431591ee0b67f0d8a26aacbf5b77f8e0bc6213728c5140546040f0ee37f54".
Proof. vm_compute. reflexivity. Qed.

Example replace_is_first_occurrence_only :
  String_replace "a-b-c" "-" "+" = "a+b-c" /\ String_replace "abc" "-" "+" = "abc".
Proof. split; reflexivity. Qed.

Example split_keeps_empty_pieces :
  String_split Service.newline ("a" ++ LF ++ LF ++ "b" ++ LF) = ["a"; ""; "b"; ""].
Proof. reflexivity. Qed.

Example code_points_of_mixed_text : code_points "a➕b" = ["a"; "➕"; "b"].
Proof. reflexivity. Qed.

Example ToString_of_nested_array :
  ToString (VArray [VNumber "1"; VNull; VArray [VString "x"; VBoolean true]; VObject []])
  = Normal "1,,x,true,[object Object]".
Proof. reflexivity. Qed.

Example Set_keeps_first_occurrences :
  Set_from [VString "b"; VString "a"; VString "b"; VNumber "1"; VString "1"; VNumber "1"]
  = [VString "b"; VString "a"; VNumber "1"; VString "1"].
Proof. reflexivity. Qed.

Example stringify_drops_undefined_properties :
  JSON.stringify (VObject [("a", VArray [VNumber "1"; VUndefined]); ("b", VUndefined);
                           ("c", VString ("x" ++ LF))])
  = Some ("{" ++ Sample.dq ++ "a" ++ Sample.dq ++ ":[1,null],"
          ++ Sample.dq ++ "c" ++ Sample.dq ++ ":" ++ Sample.dq ++ "x\n" ++ Sample.dq ++ "}").
Proof. reflexivity. Qed.

(** ** Running a computation *)

Section MonadLaws.
Context {A B : Type}.

Lemma bind_lift_Normal (a : A) (k : A -> M B) : bind (lift (Normal a)) k = k a.
Proof. reflexivity. Qed.

Lemma bind_lift_Throw (e : error) (k : A -> M B) :
  bind (lift (@Throw A e)) k = lift (Throw e).
Proof. reflexivity. Qed.

Lemma bind_Normal (m : M A) (k : A -> M B) w a w' :
  m w = (Normal a, w') -> bind m k w = k a w'.
Proof. intros H. unfold bind. now rewrite H. Qed.

Lemma bind_Throw (m : M A) (k : A -> M B) w e w' :
  m w = (Throw e, w') -> bind m k w = (Throw e, w').
Proof. intros H. unfold bind. now rewrite H. Qed.
End MonadLaws.

Lemma returns_strings_bind {A} (m : M A) (k : A -> M value) :
  (forall a, returns_strings (k a)) -> returns_strings (bind m k).
Proof.
  intros Hk w a w'. unfold bind.
  destruct (m w) as [[x | e] w1]; [apply Hk | discriminate].
Qed.

Lemma returns_strings_ret (s : string) : returns_strings (ret (VString s)).
Proof. intros w a w' [= <- _]. now exists s. Qed.

Lemma handlePushEvent_try_returns_strings {engine : Engine} payload :
  returns_strings (Service.handlePushEvent_try payload).
Proof.
  unfold Service.handlePushEvent_try.
  repeat (cbv zeta; apply returns_strings_bind; intros).
  apply returns_strings_ret.
Qed.

Lemma handlePushEvent_catch_run e w :
  Service.handlePushEvent_catch e w =
    (Normal (VString (failure_text (clock w (reads w)))),
     mkWorld (console w ++ ["Error parsing push event: " ++ error_name e])
             (clock w) (S (reads w))).
Proof. reflexivity. Qed.

(** ** Strings *)
Lemma append_empty_r (s : string) : s ++ EmptyString = s.
Proof. induction s as [| c s IH]; simpl; [reflexivity | now rewrite IH]. Qed.

Lemma String_split_first_line (s : string) :
  Array_at (map VString (String_split Service.newline s)) 0 = VString (first_line s).
Proof.
  induction s as [| c s IH]; simpl; [reflexivity |].
  destruct (Ascii.eqb c Service.newline); [reflexivity |].
  destruct (String_split Service.newline s) as [| piece pieces]; simpl in *.
  - discriminate IH.
  - now injection IH as ->.
Qed.

(** ** Reading the fields of an encoded payload *)
Lemma Get_pusher p :
  Get (to_value p) "pusher" = Normal (optional pusher_value (pusher p)).
Proof. destruct p as [[?|] [?|] [?|] [?|]]; reflexivity. Qed.

Lemma Get_ref p : Get (to_value p) "ref" = Normal (optional VString (ref p)).
Proof. destruct p as [[?|] [?|] [?|] [?|]]; reflexivity. Qed.

Lemma Get_repository p :
  Get (to_value p) "repository" = Normal (optional repository_value (repository p)).
Proof. destruct p as [[?|] [?|] [?|] [?|]]; reflexivity. Qed.

Lemma Get_commits p :
  Get (to_value p) "commits"
  = Normal (optional (fun l => VArray (map commit_value l)) (commits p)).
Proof. destruct p as [[?|] [?|] [?|] [?|]]; reflexivity. Qed.

Lemma Get_message c : Get (commit_value c) "message" = Normal (optional VString (message c)).
Proof. destruct c as [[?|] [?|] [?|] [?|]]; reflexivity. Qed.

Lemma Get_added c : Get (commit_value c) "added" = Normal (optional strings_value (added c)).
Proof. destruct c as [[?|] [?|] [?|] [?|]]; reflexivity. Qed.

Lemma Get_modified c :
  Get (commit_value c) "modified" = Normal (optional strings_value (modified c)).
Proof. destruct c as [[?|] [?|] [?|] [?|]]; reflexivity. Qed.

Lemma Get_removed c :
  Get (commit_value c) "removed" = Normal (optional strings_value (removed c)).
Proof. destruct c as [[?|] [?|] [?|] [?|]]; reflexivity. Qed.

(** ** The list of commit messages (lines 43-46) *)
Lemma commit_bullet_encoded c :
  Service.commit_bullet (commit_value c) = Normal (bullet (message_shown "No message" c)).
Proof.
  unfold Service.commit_bullet. rewrite Get_message. unfold message_shown.
  destruct (message c) as [[| a m] |]; try reflexivity.
  cbn [optional non_empty ToBoolean is_empty negb call_split cbind].
  rewrite String_split_first_line.
  cbn [template ToString cbind]. now rewrite append_empty_r.
Qed.

Lemma commit_bullets_encoded l :
  cmap Service.commit_bullet (map commit_value l)
  = Normal (map (fun c => bullet (message_shown "No message" c)) l).
Proof.
  induction l as [| c l IH]; [reflexivity |].
  cbn [map cmap]. rewrite commit_bullet_encoded, IH. reflexivity.
Qed.

(** [join] puts its separator between the elements, as [lines] does. *)
Lemma Array_join_lines (l : list string) : Array_join LF l = lines l.
Proof.
  induction l as [| a l IH]; [reflexivity |].
  destruct l as [| b l]; [reflexivity |].
  change (lines (a :: b :: l)) with (a ++ LF ++ lines (b :: l)).
  rewrite <- IH. reflexivity.
Qed.

Lemma is_empty_lines_bullets (l : list string) :
  is_empty (lines (map bullet l)) = match l with [] => true | _ => false end.
Proof. destruct l as [| a [| b l]]; reflexivity. Qed.

Lemma commitMessages_of_encoded l :
  Service.commitMessages_of (map commit_value l) = Normal (messages_text l).
Proof.
  unfold Service.commitMessages_of, messages_text.
  rewrite firstn_map, commit_bullets_encoded. cbn [cbind].
  rewrite <- (map_map (message_shown "No message") bullet).
  rewrite Array_join_lines, is_empty_lines_bullets.
  unfold bullets_or_none.
  destruct (map (message_shown "No message") (firstn 2 l)); reflexivity.
Qed.

(** ** The three file arrays (lines 49-56) *)
Lemma push_spread_optional {engine : Engine} target (field : option (list string)) :
  let files := match field with Some l => l | None => [] end in
  Service.push_spread target (optional strings_value field)
  = if (List.length files <=? argument_limit)%nat
    then Normal (target ++ map VString files)%list
    else Throw RangeError.
Proof.
  destruct field as [l |]; cbv zeta.
  - unfold Service.push_spread.
    cbn [optional strings_value ToBoolean iterate cbind].
    now rewrite length_map.
  - cbn. now rewrite app_nil_r.
Qed.

Lemma push_spread_strings {engine : Engine} target (field : option (list string)) :
  let files := match field with Some l => l | None => [] end in
  (List.length files <=? argument_limit)%nat = true ->
  Service.push_spread (map VString target) (optional strings_value field)
  = Normal (map VString (target ++ files)%list).
Proof.
  intros files Hfits. pose proof (push_spread_optional (map VString target) field) as H.
  cbv zeta in H. subst files. rewrite H, Hfits. now rewrite map_app.
Qed.

Lemma collect_encoded {engine : Engine} a m r c :
  commit_fits c = true ->
  Service.collect (Service.mkFiles (map VString a) (map VString m) (map VString r))
                  (commit_value c)
  = Normal (Service.mkFiles (map VString (a ++ files_of added c)%list)
                            (map VString (m ++ files_of modified c)%list)
                            (map VString (r ++ files_of removed c)%list)).
Proof.
  unfold commit_fits. intros [[Ha Hm]%andb_prop Hr]%andb_prop.
  unfold Service.collect. cbn [Service.addedFiles Service.modifiedFiles Service.removedFiles].
  rewrite Get_added; cbn [cbind]. rewrite push_spread_strings by exact Ha; cbn [cbind].
  rewrite Get_modified; cbn [cbind]. rewrite push_spread_strings by exact Hm; cbn [cbind].
  rewrite Get_removed; cbn [cbind]. rewrite push_spread_strings by exact Hr; cbn [cbind].
  reflexivity.
Qed.

Lemma forEach_encoded {engine : Engine} l : forall a m r,
  forallb commit_fits l = true ->
  Service.forEach (map commit_value l)
                  (Service.mkFiles (map VString a) (map VString m) (map VString r))
  = Normal (Service.mkFiles (map VString (a ++ all_files added l)%list)
                            (map VString (m ++ all_files modified l)%list)
                            (map VString (r ++ all_files removed l)%list)).
Proof.
  induction l as [| c l IH]; intros a m r Hfits.
  - cbn. now rewrite !app_nil_r.
  - cbn [forallb] in Hfits. apply andb_prop in Hfits as [Hc Hl].
    cbn [map Service.forEach]. rewrite collect_encoded by exact Hc. cbn [cbind].
    rewrite IH by exact Hl. unfold all_files. cbn [map List.concat]. now rewrite !app_assoc.
Qed.

(** A commit with a file array past the limit makes the call of [push]
    throw, whatever the arrays hold by then. *)
Lemma collect_too_long {engine : Engine} files c :
  commit_fits c = false ->
  Service.collect files (commit_value c) = Throw RangeError.
Proof.
  unfold commit_fits, files_of. intros Hlong.
  unfold Service.collect.
  pose proof (fun target => push_spread_optional target (added c)) as Ha.
  pose proof (fun target => push_spread_optional target (modified c)) as Hm.
  pose proof (fun target => push_spread_optional target (removed c)) as Hr.
  cbv zeta in Ha, Hm, Hr.
  rewrite Get_added; cbn [cbind]. rewrite Ha.
  destruct (_ <=? _)%nat in Hlong |- *; [| reflexivity]. cbn [cbind].
  rewrite Get_modified; cbn [cbind]. rewrite Hm.
  destruct (_ <=? _)%nat in Hlong |- *; [| reflexivity]. cbn [cbind].
  rewrite Get_removed; cbn [cbind]. rewrite Hr.
  destruct (_ <=? _)%nat in Hlong |- *; [discriminate Hlong | reflexivity].
Qed.

(** The loop stops at the first such commit. *)
Lemma forEach_too_long {engine : Engine} l : forall a m r,
  forallb commit_fits l = false ->
  Service.forEach (map commit_value l)
                  (Service.mkFiles (map VString a) (map VString m) (map VString r))
  = Throw RangeError.
Proof.
  induction l as [| c l IH]; intros a m r Hlong; [discriminate Hlong |].
  cbn [forallb] in Hlong. cbn [map Service.forEach].
  destruct (commit_fits c) eqn:Hc.
  - rewrite collect_encoded by exact Hc. cbn [cbind]. now apply IH.
  - now rewrite collect_too_long.
Qed.

(** ** Deduplicating and limiting (lines 58-60) *)
Lemma filter_filter {A} (p q : A -> bool) (l : list A) :
  filter p (filter q l) = filter (fun y => q y && p y) l.
Proof.
  induction l as [| a l IH]; [reflexivity |]. simpl.
  destruct (q a); simpl; [destruct (p a) |]; now rewrite IH.
Qed.

Lemma Set_has_strings acc x :
  Set_has (map VString acc) (VString x) = existsb (String.eqb x) acc.
Proof. unfold Set_has. induction acc as [| a acc IH]; simpl; [reflexivity | now rewrite IH]. Qed.

Lemma Set_from_strings_from l : forall acc,
  fold_left Set_add (map VString l) (map VString acc)
  = map VString
      (acc ++ filter (fun y => negb (existsb (String.eqb y) acc)) (dedupe l))%list.
Proof.
  induction l as [| x l IH]; intros acc.
  - simpl. now rewrite app_nil_r.
  - cbn [map fold_left dedupe filter]. unfold Set_add at 2.
    rewrite Set_has_strings.
    destruct (existsb (String.eqb x) acc) eqn:Hx; cbn [negb].
    + rewrite IH, filter_filter. do 2 f_equal. apply filter_ext. intros y.
      destruct (String.eqb_spec y x) as [-> |]; [now rewrite Hx | reflexivity].
    + change (map VString acc ++ [VString x])%list with (map VString acc ++ map VString [x])%list.
      rewrite <- map_app, IH, filter_filter, <- app_assoc. cbn [app].
      do 3 f_equal. apply filter_ext. intros y.
      rewrite existsb_app. cbn [existsb]. rewrite orb_false_r, negb_orb.
      apply andb_comm.
Qed.

Lemma Set_from_strings l : Set_from (map VString l) = map VString (dedupe l).
Proof.
  unfold Set_from. change (@nil value) with (map VString []).
  rewrite Set_from_strings_from. cbn [app existsb negb].
  now rewrite filter_true.
Qed.

Lemma dedupe_and_limit_strings l :
  Service.dedupe_and_limit (map VString l) = map VString (firstn 3 (dedupe l)).
Proof. unfold Service.dedupe_and_limit. now rewrite Set_from_strings, firstn_map. Qed.

(** ** [formatFileList] (line 63) *)
Lemma file_bullets_strings l :
  cmap Service.file_bullet (map VString l) = Normal (map bullet l).
Proof.
  induction l as [| a l IH]; [reflexivity |].
  cbn [map cmap]. rewrite IH. unfold Service.file_bullet.
  cbn [template ToString cbind]. now rewrite append_empty_r.
Qed.

Lemma formatFileList_strings l :
  Service.formatFileList (map VString l) = Normal (bullets_or_none l).
Proof.
  destruct l as [| a l]; [reflexivity |].
  unfold Service.formatFileList. cbn [map].
  change (VString a :: map VString l) with (map VString (a :: l)).
  rewrite file_bullets_strings. cbn [cbind]. now rewrite Array_join_lines.
Qed.

Lemma append_assoc (a b c : string) : (a ++ b) ++ c = a ++ b ++ c.
Proof. induction a as [| x a IH]; simpl; [reflexivity | now rewrite IH]. Qed.

(** ** The whole body on an encoded payload *)
Lemma Get_pusher_name p :
  Get (JS_or (optional pusher_value (pusher p)) (VObject [("name", VString "Unknown")]))
      "name"
  = Normal (pusher_name_value p).
Proof. unfold pusher_name_value. destruct (pusher p) as [[[n |]] |]; reflexivity. Qed.

Lemma ToString_pusher_name p : ToString (pusher_name_value p) = Normal (pusher_text p).
Proof.
  unfold pusher_name_value, pusher_text. destruct (pusher p) as [[[n |]] |]; reflexivity.
Qed.

Lemma branch_encoded p :
  call_replace (JS_or (optional VString (ref p)) (VString "refs/heads/unknown"))
               "refs/heads/" EmptyString
  = Normal (VString (String_replace (or_else (non_empty (ref p)) "refs/heads/unknown")
                                    "refs/heads/" EmptyString)).
Proof. destruct (ref p) as [[| c r] |]; reflexivity. Qed.

Lemma JS_or_string (s default : string) :
  JS_or (VString s) (VString default) = VString (if is_empty s then default else s).
Proof. destruct s; reflexivity. Qed.

Lemma commits_encoded p :
  match optional (fun l => VArray (map commit_value l)) (commits p) with
  | VArray elements => elements
  | _ => []
  end = map commit_value (commit_list p).
Proof. unfold commit_list. destruct (commits p); reflexivity. Qed.

Lemma repoFullName_encoded {B} p (k : value -> M B) :
  (let repository :=
     JS_or (optional repository_value (repository p))
           (VObject [("name", VString "unknown-repo");
                     ("full_name", VString "unknown/unknown-repo")]) in
   full_name <~ Get repository "full_name" ;;
   repoFullName <~ (if ToBoolean full_name then Normal full_name
                    else let! name := Get repository "name" in
                         Normal (JS_or name (VString "unknown/unknown-repo"))) ;;
   k repoFullName)
  = k (VString (repository_text p)).
Proof.
  unfold repository_text.
  destruct (repository p) as [[[[| a n] |] [[| b f] |]] |]; reflexivity.
Qed.

Lemma topCommitMessage_encoded {B} l (k : value -> M B) :
  (let first := Array_at (map commit_value l) 0 in
   has_message <~ (if ToBoolean first then Get first "message" else Normal first) ;;
   topCommitMessage <~ (if ToBoolean has_message then
                          let! first_message := Get first "message" in
                          let! parts := call_split first_message Service.newline in
                          Normal (Array_at parts 0)
                        else Normal (VString "No commit message provided")) ;;
   k topCommitMessage)
  = k (VString (top_text l)).
Proof.
  destruct l as [| c l]; [reflexivity |].
  cbn [map Array_at nth top_text]. cbv zeta.
  change (ToBoolean (commit_value c)) with true. cbv iota.
  rewrite Get_message. rewrite bind_lift_Normal. unfold message_shown.
  destruct (message c) as [[| a m] |]; try reflexivity.
  cbn [cbind optional ToBoolean is_empty negb non_empty call_split].
  now rewrite String_split_first_line.
Qed.

Lemma timestamp_now_run w :
  Service.timestamp_now w
  = (Normal (time_text (clock w (reads w))),
     mkWorld (console w) (clock w) (S (reads w))).
Proof. reflexivity. Qed.

Lemma message_template_text pn (rn br : string) n cm top a m r ts who :
  ToString pn = Normal who ->
  template (Service.message_template pn (VString rn) (VString br) n cm (VString top)
              ("➕ *Added*:" ++ LF ++ a) ("✏️ *Modified*:" ++ LF ++ m)
              ("🗑️ *Removed*:" ++ LF ++ r) ts)
  = Normal (message_text (mkParts who rn br n cm top a m r ts)).
Proof.
  intros Hpn. unfold Service.message_template, message_text.
  cbn [template ToString cbind part_pusher part_repository part_branch part_count
       part_messages part_top part_added part_modified part_removed part_time].
  rewrite Hpn. cbn [cbind].
  rewrite !append_assoc, append_empty_r.
  destruct n; reflexivity.
Qed.

Lemma handlePushEvent_try_encoded {engine : Engine} p w :
  fits p = true ->
  Service.handlePushEvent_try (to_value p) w
  = (Normal (VString (message_text (parts_of p (clock w (reads w))))),
     mkWorld (console w ++ [log_line p]) (clock w) (S (reads w))).
Proof.
  intros Hfits. unfold fits in Hfits.
  unfold Service.handlePushEvent_try.
  rewrite Get_pusher, bind_lift_Normal.
  rewrite Get_ref, bind_lift_Normal.
  rewrite Get_repository, bind_lift_Normal.
  rewrite Get_commits, bind_lift_Normal.
  cbv zeta. rewrite commits_encoded, length_map.
  rewrite branch_encoded, bind_lift_Normal, JS_or_string.
  rewrite Get_pusher_name, bind_lift_Normal.
  cbn [template ToString]. rewrite ToString_pusher_name. cbn [cbind].
  rewrite bind_lift_Normal.
  erewrite bind_Normal by reflexivity.
  pose proof (@repoFullName_encoded) as Hrepo. cbv zeta in Hrepo. rewrite Hrepo. clear Hrepo.
  pose proof (@topCommitMessage_encoded) as Htop. cbv zeta in Htop. rewrite Htop. clear Htop.
  rewrite commitMessages_of_encoded, bind_lift_Normal.
  change (Service.mkFiles [] [] []) with
    (Service.mkFiles (map VString []) (map VString []) (map VString [])).
  rewrite forEach_encoded by exact Hfits. rewrite bind_lift_Normal.
  cbn [app Service.addedFiles Service.modifiedFiles Service.removedFiles].
  rewrite !dedupe_and_limit_strings, !formatFileList_strings, !bind_lift_Normal.
  erewrite bind_Normal by apply timestamp_now_run.
  rewrite bind_lift_Normal.
  erewrite message_template_text by apply ToString_pusher_name.
  rewrite bind_lift_Normal. unfold ret. cbn [clock reads console].
  unfold log_line, parts_of, branch_text, files_text, files_shown. cbv zeta.
  rewrite ?append_assoc, ?append_empty_r.
  reflexivity.
Qed.

(** ** Buffers and the comparison *)
Lemma length_Buffer_from_string (s : string) :
  List.length (Buffer_from_string s) = String.length s.
Proof.
  unfold Buffer_from_string. rewrite length_map.
  induction s as [| c s IH]; simpl; [reflexivity | now rewrite IH].
Qed.

Lemma timingSafeEqual_same (a : Buffer) : timingSafeEqual a a = Normal true.
Proof.
  unfold timingSafeEqual. rewrite Nat.eqb_refl. do 2 f_equal.
  induction a as [| x a IH]; [reflexivity |].
  cbn [combine fold_left fst snd]. now rewrite Z.lxor_nilpotent.
Qed.

Lemma verifyWebhook_try_missing_header digest w :
  Route.verifyWebhook_try None digest w = (Throw TypeError, w).
Proof. reflexivity. Qed.

Lemma verifyWebhook_try_length_mismatch s digest w :
  String.length s <> String.length digest ->
  Route.verifyWebhook_try (Some s) digest w = (Normal false, w).
Proof.
  intros Hlen. unfold Route.verifyWebhook_try, Buffer_from.
  rewrite !bind_lift_Normal, !length_Buffer_from_string.
  apply Nat.eqb_neq in Hlen. now rewrite Hlen.
Qed.

Lemma verifyWebhook_try_same digest w :
  Route.verifyWebhook_try (Some digest) digest w = (Normal true, w).
Proof.
  unfold Route.verifyWebhook_try, Buffer_from.
  rewrite !bind_lift_Normal, Nat.eqb_refl. cbn [negb].
  unfold lift. now rewrite timingSafeEqual_same.
Qed.

Lemma verifyWebhook_with_secret secret rawBody signature :
  is_empty secret = false ->
  Route.verifyWebhook (Some secret) rawBody signature
  = try_catch (Route.verifyWebhook_try signature
                 ("sha256=" ++ hmac_sha256_hex secret rawBody))
              (fun _ => ret false).
Proof. destruct secret; [discriminate | reflexivity]. Qed.

Lemma verifyWebhook_without_secret secret rawBody signature w :
  or_else (non_empty secret) EmptyString = EmptyString ->
  outcome (Route.verifyWebhook secret rawBody signature) w = Normal false.
Proof. destruct secret as [[| c s] |]; [reflexivity | discriminate | reflexivity]. Qed.

Lemma try_catch_false_total (body : M bool) w :
  exists b, outcome (try_catch body (fun _ => ret false)) w = Normal b.
Proof.
  unfold outcome, try_catch.
  destruct (body w) as [[b | e] w']; [exists b | exists false]; reflexivity.
Qed.

(** ** Removing duplicates *)
Lemma dedupe_In x l : In x (dedupe l) <-> In x l.
Proof.
  induction l as [| a l IH]; [reflexivity |].
  cbn [dedupe In]. rewrite filter_In, IH. split.
  - intros [-> | [H _]]; auto.
  - intros [-> | H]; [now left |].
    destruct (String.eqb_spec x a) as [-> | Hne]; [now left | right].
    split; [assumption | reflexivity].
Qed.

Lemma dedupe_NoDup l : NoDup (dedupe l).
Proof.
  induction l as [| a l IH]; cbn [dedupe]; constructor.
  - rewrite filter_In, String.eqb_refl. now intros [_ H].
  - now apply NoDup_filter.
Qed.

Lemma StronglySorted_filter {A} (R : A -> A -> Prop) (f : A -> bool) l :
  StronglySorted R l -> StronglySorted R (filter f l).
Proof.
  induction 1 as [| a l Hs IH Hall]; cbn [filter]; [constructor |].
  destruct (f a); [constructor |]; try assumption.
  rewrite Forall_forall in *. intros y Hy. apply Hall.
  now apply filter_In in Hy.
Qed.

Lemma StronglySorted_on {A} (P : A -> Prop) (R R' : A -> A -> Prop) l :
  (forall x y, P x -> P y -> R x y -> R' x y) ->
  Forall P l -> StronglySorted R l -> StronglySorted R' l.
Proof.
  intros HR HP Hs. induction Hs as [| a l Hs IH Hall]; constructor.
  - apply IH. now inversion HP.
  - inversion HP as [| ? ? Pa Pl]; subst. rewrite Forall_forall in *.
    intros y Hy. apply HR; auto.
Qed.

Lemma first_index_other a x l :
  String.eqb x a = false -> first_index x (a :: l) = S (first_index x l).
Proof. intros H. cbn [first_index]. now rewrite String.eqb_sym, H. Qed.

Lemma dedupe_sorted l : StronglySorted (earlier l) (dedupe l).
Proof.
  induction l as [| a l IH]; cbn [dedupe]; constructor.
  - apply StronglySorted_on
      with (P := fun y => String.eqb y a = false) (R := earlier l).
    + intros x y Hx Hy. unfold earlier.
      rewrite (first_index_other a x l Hx), (first_index_other a y l Hy). lia.
    + apply Forall_forall. intros y Hy. apply filter_In in Hy.
      now apply negb_true_iff.
    + now apply StronglySorted_filter.
  - apply Forall_forall. intros y Hy. apply filter_In in Hy as [_ Hy].
    apply negb_true_iff in Hy. unfold earlier.
    rewrite (first_index_other a y l Hy).
    cbn [first_index]. rewrite String.eqb_refl. lia.
Qed.

Lemma StronglySorted_app_inv {A} (R : A -> A -> Prop) l1 l2 :
  StronglySorted R (l1 ++ l2) ->
  StronglySorted R l1 /\ forall x y, In x l1 -> In y l2 -> R x y.
Proof.
  induction l1 as [| a l1 IH]; cbn [app]; intros Hs.
  - split; [constructor | intros x y []].
  - apply StronglySorted_inv in Hs as [Hs Hall].
    destruct (IH Hs) as [Hs1 Hcross]. rewrite Forall_forall in Hall. split.
    + constructor; [assumption |]. apply Forall_forall. intros y Hy.
      apply Hall, in_or_app. now left.
    + intros x y [<- | Hx] Hy; [apply Hall, in_or_app; now right | now apply Hcross].
Qed.

Lemma files_shown_sorted field l :
  StronglySorted (earlier (all_files field l)) (files_shown field l).
Proof.
  unfold files_shown.
  pose proof (dedupe_sorted (all_files field l)) as Hs.
  rewrite <- (firstn_skipn 3 (dedupe (all_files field l))) in Hs.
  now apply StronglySorted_app_inv in Hs.
Qed.

Lemma files_shown_earliest field l x y :
  In x (files_shown field l) -> In y (all_files field l) ->
  ~ In y (files_shown field l) ->
  earlier (all_files field l) x y.
Proof.
  unfold files_shown. intros Hx Hy Hny.
  pose proof (dedupe_sorted (all_files field l)) as Hs.
  rewrite <- (firstn_skipn 3 (dedupe (all_files field l))) in Hs.
  apply StronglySorted_app_inv in Hs as [_ Hcross]. apply Hcross; [assumption |].
  apply dedupe_In in Hy.
  rewrite <- (firstn_skipn 3 (dedupe (all_files field l))) in Hy.
  apply in_app_or in Hy as [Hy | Hy]; [contradiction | assumption].
Qed.

Lemma files_shown_In field l x :
  In x (files_shown field l) -> In x (all_files field l).
Proof.
  unfold files_shown. intros H. apply dedupe_In.
  rewrite <- (firstn_skipn 3 (dedupe _)). apply in_or_app. now left.
Qed.

Lemma files_shown_NoDup field l : NoDup (files_shown field l).
Proof.
  unfold files_shown.
  pose proof (dedupe_NoDup (all_files field l)) as H.
  rewrite <- (firstn_skipn 3 (dedupe _)) in H. now apply NoDup_app_remove_r in H.
Qed.

Lemma files_shown_length field l : List.length (files_shown field l) <= 3.
Proof. unfold files_shown. apply firstn_le_length. Qed.

Lemma files_shown_all field l :
  List.length (dedupe (all_files field l)) <= 3 ->
  files_shown field l = dedupe (all_files field l).
Proof. unfold files_shown. apply firstn_all2. Qed.

Lemma all_files_app field l1 l2 :
  all_files field (l1 ++ l2) = (all_files field l1 ++ all_files field l2)%list.
Proof. unfold all_files. now rewrite map_app, concat_app. Qed.

(** ** Replacing the first occurrence *)
Lemma length_append (a b : string) : length (a ++ b) = length a + length b.
Proof. induction a as [| x a IH]; simpl; [reflexivity | now rewrite IH]. Qed.

Lemma append_cancel_l (a x y : string) : a ++ x = a ++ y -> x = y.
Proof. induction a as [| c a IH]; simpl; [auto | intros [= H]; auto]. Qed.

Lemma substring_whole (s : string) : substring 0 (length s) s = s.
Proof. induction s as [| c s IH]; simpl; [reflexivity | now rewrite IH]. Qed.

Lemma substring_0_append (a b : string) : substring 0 (length a) (a ++ b) = a.
Proof. induction a as [| c a IH]; simpl; [now destruct b | now rewrite IH]. Qed.

Lemma substring_skip (a b : string) n : substring (length a) n (a ++ b) = substring 0 n b.
Proof. induction a as [| c a IH]; simpl; [reflexivity | apply IH]. Qed.

Lemma substring_middle (a b c : string) : substring (length a) (length b) (a ++ b ++ c) = b.
Proof. rewrite substring_skip. apply substring_0_append. Qed.

Lemma length_substring (s : string) : forall i n,
  length (substring i n s) = Nat.min n (length s - i).
Proof.
  induction s as [| c s IH]; intros [| i] [| n]; simpl; try reflexivity.
  - now rewrite IH, Nat.sub_0_r.
  - apply IH.
  - apply IH.
Qed.

Lemma substring_split (s : string) : forall i n,
  i + n <= length s ->
  s = substring 0 i s ++ substring i n s ++ substring (i + n) (length s - (i + n)) s.
Proof.
  induction s as [| c s IH]; intros i n Hle.
  - simpl in Hle. assert (i = 0) as -> by lia. assert (n = 0) as -> by lia. reflexivity.
  - destruct i as [| i].
    + destruct n as [| n].
      * simpl. now rewrite substring_whole.
      * simpl in *. f_equal.
        pose proof (IH 0 n ltac:(lia)) as H. simpl in H.
        replace (substring 0 0 s) with EmptyString in H by now destruct s.
        exact H.
    + simpl in *. f_equal. apply IH. lia.
Qed.

Lemma String_replace_first_removed (pattern s : string) :
  pattern <> EmptyString ->
  first_removed pattern s (String_replace s pattern EmptyString).
Proof.
  intros Hp. unfold String_replace.
  assert (0 < length pattern) as Hlen by (destruct pattern; [contradiction | simpl; lia]).
  destruct (index 0 pattern s) as [i |] eqn:Hi.
  - left.
    pose proof (index_correct1 _ _ _ _ Hi) as Hat.
    assert (i + length pattern <= length s) as Hin.
    { pose proof (length_substring s i (length pattern)) as H.
      rewrite Hat in H. lia. }
    exists (substring 0 i s),
           (substring (i + length pattern) (length s - (i + length pattern)) s).
    split; [| split].
    + pose proof (substring_split s i (length pattern) Hin) as Hsplit.
      now rewrite Hat in Hsplit.
    + reflexivity.
    + intros before' after' Hs. rewrite length_substring.
      destruct (Nat.lt_ge_cases (length before') i) as [Hlt | Hge]; [| lia].
      exfalso. apply (index_correct2 _ _ _ _ Hi (length before')); [lia | assumption |].
      rewrite Hs. apply substring_middle.
  - right. split; [reflexivity |]. intros before after Hs.
    apply (index_correct3 0 (length before) _ _ Hi Hp); [lia |].
    rewrite Hs. apply substring_middle.
Qed.

Lemma first_removed_at_start (pattern rest t : string) :
  first_removed pattern (pattern ++ rest) t -> t = rest.
Proof.
  intros [(before & after & Hs & -> & Hmin) | [_ Hnone]].
  - specialize (Hmin EmptyString rest eq_refl). simpl in Hmin.
    destruct before; [| simpl in Hmin; lia].
    simpl in *. symmetry. now apply append_cancel_l in Hs.
  - exfalso. now apply (Hnone EmptyString rest).
Qed.

Lemma String_replace_prefix (pattern rest : string) :
  pattern <> EmptyString ->
  String_replace (pattern ++ rest) pattern EmptyString = rest.
Proof.
  intros Hp. apply (first_removed_at_start pattern).
  now apply String_replace_first_removed.
Qed.

Lemma handlePushEvent_encoded {engine : Engine} p w :
  fits p = true ->
  outcome (Service.handlePushEvent (to_value p)) w
  = Normal (VString (message_text (parts_of p (clock w (reads w))))).
Proof.
  intros Hfits. unfold outcome, Service.handlePushEvent, try_catch.
  now rewrite handlePushEvent_try_encoded.
Qed.

(** ** A file array past the argument limit *)

(** The body of the [try] logs its line, then throws in the loop over the
    commits, before the clock is read. *)
Lemma handlePushEvent_try_too_long {engine : Engine} p w :
  fits p = false ->
  Service.handlePushEvent_try (to_value p) w
  = (Throw RangeError, mkWorld (console w ++ [log_line p]) (clock w) (reads w)).
Proof.
  intros Hlong. unfold fits in Hlong.
  unfold Service.handlePushEvent_try.
  rewrite Get_pusher, bind_lift_Normal.
  rewrite Get_ref, bind_lift_Normal.
  rewrite Get_repository, bind_lift_Normal.
  rewrite Get_commits, bind_lift_Normal.
  cbv zeta. rewrite commits_encoded, length_map.
  rewrite branch_encoded, bind_lift_Normal, JS_or_string.
  rewrite Get_pusher_name, bind_lift_Normal.
  cbn [template ToString]. rewrite ToString_pusher_name. cbn [cbind].
  rewrite bind_lift_Normal.
  erewrite bind_Normal by reflexivity.
  pose proof (@repoFullName_encoded) as Hrepo. cbv zeta in Hrepo. rewrite Hrepo. clear Hrepo.
  pose proof (@topCommitMessage_encoded) as Htop. cbv zeta in Htop. rewrite Htop. clear Htop.
  rewrite commitMessages_of_encoded, bind_lift_Normal.
  change (Service.mkFiles [] [] []) with
    (Service.mkFiles (map VString []) (map VString []) (map VString [])).
  rewrite forEach_too_long by exact Hlong. rewrite bind_lift_Throw.
  unfold log_line, branch_text. cbv zeta.
  rewrite ?append_assoc, ?append_empty_r.
  reflexivity.
Qed.

Lemma handlePushEvent_too_long {engine : Engine} p w :
  fits p = false ->
  Service.handlePushEvent (to_value p) w
  = (Normal (VString (failure_text (clock w (reads w)))),
     mkWorld (console w ++ [log_line p; "Error parsing push event: RangeError"])
             (clock w) (S (reads w))).
Proof.
  intros Hlong. unfold Service.handlePushEvent, try_catch.
  rewrite handlePushEvent_try_too_long by exact Hlong.
  rewrite handlePushEvent_catch_run. cbn [console clock reads error_name].
  now rewrite <- app_assoc.
Qed.

(** What fits an engine that takes [n] arguments: a payload all of whose file
    arrays hold at most [n] entries. *)
Lemma fits_of_lengths {engine : Engine} (n : nat) p :
  n <= argument_limit ->
  forallb (fun c => (List.length (files_of added c) <=? n)%nat
                    && (List.length (files_of modified c) <=? n)%nat
                    && (List.length (files_of removed c) <=? n)%nat) (commit_list p) = true ->
  fits p = true.
Proof.
  intros Hn Hall. unfold fits. rewrite forallb_forall in *. intros c Hc.
  specialize (Hall c Hc). unfold commit_fits.
  apply andb_prop in Hall as [[Ha Hm]%andb_prop Hr].
  apply Nat.leb_le in Ha, Hm, Hr.
  rewrite !andb_true_iff, !Nat.leb_le. lia.
Qed.

(* ================================================================== *)
(** * Signature verification *)
(* ================================================================== *)

(** C1, as stated, fails: a body signed under the empty secret is rejected,
    since [verifyWebhook] answers [false] whenever the secret is empty. *)
Lemma empty_secret_rejects_own_signature :
  outcome (Route.verifyWebhook (Some EmptyString) Sample.rawBody
             (Some (expected_signature EmptyString Sample.rawBody))) Sample.world0
  = Normal false
  /\ outcome (Route.verifyWebhook (Some EmptyString) Sample.rawBody
                (Some (expected_signature EmptyString Sample.rawBody))) Sample.world0
     <> Normal true.
Proof. split; [reflexivity | discriminate]. Qed.

(** C1, amended: for every body [B] and every non-empty secret [S],
    verifying [B] against ["sha256="] followed by the HMAC-SHA256 of [B]
    under [S], in hexadecimal, returns [true]. *)
Theorem verify_accepts_own_signature (B S : string) (w : world) :
  is_empty S = false ->
  outcome (Route.verifyWebhook (Some S) B (Some ("sha256=" ++ hmac_sha256_hex S B))) w
  = Normal true.
Proof.
  intros HS. rewrite verifyWebhook_with_secret by assumption.
  unfold outcome, try_catch. now rewrite verifyWebhook_try_same.
Qed.

(** An instance: the sample body signed under the sample secret. *)
Lemma verify_accepts_own_signature_witness :
  is_empty Sample.secret = false
  /\ outcome (Route.verifyWebhook (Some Sample.secret) Sample.rawBody
                (Some ("sha256=" ++ hmac_sha256_hex Sample.secret Sample.rawBody)))
             Sample.world0
     = Normal true.
Proof.
  split; [reflexivity |].
  apply (verify_accepts_own_signature Sample.rawBody Sample.secret Sample.world0).
  reflexivity.
Defined.

(** C2: the verifier of [services/github-webhook.js] does not hash the raw
    body.  For the body [{"ref": "refs/heads/main"}] signed under the secret,
    the verifier of [route.js] hashes the body as received and accepts; the
    one of the service hashes [JSON.stringify] of the parsed body, another
    text, and rejects the same signature. *)
Theorem service_verifier_hashes_reserialized_body :
  JSON.stringify Sample.parsedBody = Some Sample.reserialized
  /\ Sample.reserialized <> Sample.rawBody
  /\ outcome (Route.verifyWebhook (Some Sample.secret) Sample.rawBody
                (Some (expected_signature Sample.secret Sample.rawBody))) Sample.world0
     = Normal true
  /\ outcome (Service.verifyWebhook (Some Sample.secret) Sample.parsedBody
                (Some (expected_signature Sample.secret Sample.rawBody))) Sample.world0
     = Normal false
  /\ outcome (Service.verifyWebhook (Some Sample.secret) Sample.parsedBody
                (Some (expected_signature Sample.secret Sample.reserialized))) Sample.world0
     = Normal true.
Proof.
  split; [reflexivity |]. split; [discriminate |].
  split; [| split]; vm_compute; reflexivity.
Qed.

(** C3: [verifyWebhook] never throws, and it returns [false] when the secret
    is unset or empty, when the signature header is missing, when the
    header's length differs from the length of the expected digest, and when
    the comparison throws. *)
Theorem verify_failures_are_false (secret : option string) (body : string)
    (signature : option string) (w : world) :
  (exists b, outcome (Route.verifyWebhook secret body signature) w = Normal b)
  /\ (secret = None \/ secret = Some EmptyString ->
      outcome (Route.verifyWebhook secret body signature) w = Normal false)
  /\ (signature = None ->
      outcome (Route.verifyWebhook secret body signature) w = Normal false)
  /\ (forall key s,
        secret = Some key -> signature = Some s ->
        length s <> length (expected_signature key body) ->
        outcome (Route.verifyWebhook secret body signature) w = Normal false)
  /\ (forall key e w',
        secret = Some key -> is_empty key = false ->
        Route.verifyWebhook_try signature (expected_signature key body) w = (Throw e, w') ->
        outcome (Route.verifyWebhook secret body signature) w = Normal false).
Proof.
  assert (forall key, secret = Some key -> is_empty key = true ->
                      outcome (Route.verifyWebhook secret body signature) w = Normal false)
    as Hempty.
  { intros key -> Hkey. destruct key; [reflexivity | discriminate]. }
  repeat split.
  - destruct secret as [key |]; [| now exists false].
    destruct (is_empty key) eqn:Hkey; [exists false; now apply (Hempty key) |].
    rewrite verifyWebhook_with_secret by assumption. apply try_catch_false_total.
  - intros [-> | ->]; reflexivity.
  - intros ->. destruct secret as [[| c key] |]; reflexivity.
  - intros key s -> -> Hlen.
    destruct (is_empty key) eqn:Hkey; [now apply (Hempty key) |].
    rewrite verifyWebhook_with_secret by assumption.
    unfold outcome, try_catch. unfold expected_signature in Hlen.
    now rewrite (verifyWebhook_try_length_mismatch s _ w Hlen).
  - intros key e w' -> Hkey Hthrow.
    rewrite verifyWebhook_with_secret by assumption.
    unfold outcome, try_catch. unfold expected_signature in Hthrow.
    now rewrite Hthrow.
Qed.

(** Instances: no secret, no header, a header that is too short. *)
Lemma verify_failures_are_false_witness :
  outcome (Route.verifyWebhook None Sample.rawBody (Some "sha256=00")) Sample.world0
  = Normal false
  /\ outcome (Route.verifyWebhook (Some Sample.secret) Sample.rawBody None) Sample.world0
     = Normal false
  /\ outcome (Route.verifyWebhook (Some Sample.secret) Sample.rawBody (Some "sha256=00"))
             Sample.world0
     = Normal false.
Proof.
  split; [| split].
  - exact (proj1 (proj2 (verify_failures_are_false
                           None Sample.rawBody (Some "sha256=00") Sample.world0))
                 (or_introl eq_refl)).
  - exact (proj1 (proj2 (proj2 (verify_failures_are_false
                                  (Some Sample.secret) Sample.rawBody None Sample.world0)))
                 eq_refl).
  - refine (proj1 (proj2 (proj2 (proj2 (verify_failures_are_false
                                          (Some Sample.secret) Sample.rawBody
                                          (Some "sha256=00") Sample.world0))))
                  Sample.secret "sha256=00" eq_refl eq_refl _).
    vm_compute. lia.
Defined.

(* ================================================================== *)
(** * The push-event formatter *)
(* ================================================================== *)

(** C4: for every payload, [handlePushEvent] returns a string and does not
    throw; when the body of its [try] throws, the result is the fallback
    message with its time stamp; for the empty object the body does not
    throw and the message holds the defaults. *)
Theorem handlePushEvent_never_throws {engine : Engine} (payload : value) (w : world) :
  (exists s, outcome (Service.handlePushEvent payload) w = Normal (VString s))
  /\ (forall e w',
        Service.handlePushEvent_try payload w = (Throw e, w') ->
        outcome (Service.handlePushEvent payload) w
        = Normal (VString ("⚠️ *Push processing failed* ⚠️" ++ LF ++ "🕒 *At*: "
                           ++ time_text (clock w' (reads w')))))
  /\ outcome (Service.handlePushEvent (VObject [])) w
     = Normal (VString (message_text
         (mkParts "Unknown" "unknown/unknown-repo" "unknown" 0 "  - None"
                  "No commit message provided" "  - None" "  - None" "  - None"
                  (time_text (clock w (reads w)))))).
Proof.
  split; [| split].
  - unfold outcome, Service.handlePushEvent, try_catch.
    destruct (Service.handlePushEvent_try payload w) as [[a | e] w'] eqn:Hrun.
    + destruct (handlePushEvent_try_returns_strings payload w a w' Hrun) as [s ->].
      now exists s.
    + rewrite handlePushEvent_catch_run. eexists. reflexivity.
  - intros e w' Hrun. unfold outcome, Service.handlePushEvent, try_catch.
    rewrite Hrun, handlePushEvent_catch_run. reflexivity.
  - apply (handlePushEvent_encoded (mkPayload None None None None)). reflexivity.
Qed.

(** An instance: reading [undefined.pusher] throws, and the fallback message
    is returned. *)
Lemma handlePushEvent_never_throws_witness :
  outcome (Service.handlePushEvent (engine := Sample.engine) VUndefined) Sample.world0
  = Normal (VString ("⚠️ *Push processing failed* ⚠️" ++ LF ++ "🕒 *At*: "
                     ++ time_text (clock Sample.world0 (reads Sample.world0)))).
Proof.
  exact (proj1 (proj2 (handlePushEvent_never_throws (engine := Sample.engine)
                         VUndefined Sample.world0))
               TypeError Sample.world0 eq_refl).
Defined.

(** C5: a payload whose [pusher] is present without a [name] is shown as
    [@undefined], not as [@Unknown]: the default covers an absent [pusher]
    only.  The other defaults are as described: a payload with no field at
    all shows pusher [Unknown], repository [unknown/unknown-repo], branch
    [unknown] and no commits, and so does one whose [commits] is not an
    array. *)
Theorem pusher_without_name_shows_undefined {engine : Engine} (w : world) :
  outcome (Service.handlePushEvent (VObject [("pusher", VObject [])])) w
  = Normal (VString (message_text
      (mkParts "undefined" "unknown/unknown-repo" "unknown" 0 "  - None"
               "No commit message provided" "  - None" "  - None" "  - None"
               (time_text (clock w (reads w))))))
  /\ outcome (Service.handlePushEvent (VObject [])) w
     = Normal (VString (message_text
         (mkParts "Unknown" "unknown/unknown-repo" "unknown" 0 "  - None"
                  "No commit message provided" "  - None" "  - None" "  - None"
                  (time_text (clock w (reads w))))))
  /\ outcome (Service.handlePushEvent (VObject [("commits", VString "none")])) w
     = Normal (VString (message_text
         (mkParts "Unknown" "unknown/unknown-repo" "unknown" 0 "  - None"
                  "No commit message provided" "  - None" "  - None" "  - None"
                  (time_text (clock w (reads w)))))).
Proof.
  split; [| split].
  - apply (handlePushEvent_encoded (mkPayload (Some (mkPusher None)) None None None)).
    reflexivity.
  - apply (handlePushEvent_encoded (mkPayload None None None None)). reflexivity.
  - reflexivity.
Qed.

(** C6, as stated, fails: the ref [refs/tags/refs/heads/v1] does not start
    with [refs/heads/], so stripping that prefix leaves it as it is, while the
    message shows the branch [refs/tags/v1].  Nor is a branch shown for
    every ref: with the ref [refs/heads/main] and a commit that adds a hundred
    and fifty thousand paths, the message is the fallback message. *)
Lemma inner_refs_heads_is_removed :
  outcome (Service.handlePushEvent (engine := Sample.engine)
             (VObject [("ref", VString "refs/tags/refs/heads/v1")]))
          Sample.world0
  = Normal (VString (message_text
      (Sample.parts_with "refs/tags/v1" 0 "  - None" "No commit message provided")))
  /\ prefix_stripped_branch "refs/tags/refs/heads/v1" = "refs/tags/refs/heads/v1"
  /\ outcome (Service.handlePushEvent (engine := Sample.engine)
                (VObject [("ref", VString "refs/tags/refs/heads/v1")]))
             Sample.world0
     <> Normal (VString (message_text
          (Sample.parts_with (prefix_stripped_branch "refs/tags/refs/heads/v1") 0
                             "  - None" "No commit message provided")))
  /\ outcome (Service.handlePushEvent (engine := Sample.engine)
                (VObject [("ref", VString "refs/heads/main");
                          ("commits",
                           VArray [VObject [("added",
                                             VArray (repeat (VString "f") (150 * 1000)))]])]))
             Sample.world0
     = Normal (VString ("⚠️ *Push processing failed* ⚠️" ++ LF ++ "🕒 *At*: " ++ Sample.time)).
Proof.
  split; [| split; [| split]].
  - vm_compute. reflexivity.
  - vm_compute. reflexivity.
  - vm_compute. discriminate.
  - vm_compute. reflexivity.
Qed.

(** C6, amended: for every ref string, in a payload none of whose file
    arrays holds more entries than a call takes arguments, the branch shown
    is the ref without its first occurrence of [refs/heads/] (for a ref that
    starts with [refs/heads/], the ref without that prefix), and [unknown]
    when nothing is left; [{ref: "refs/heads/main"}] shows the branch [main]
    and [{ref: undefined}] the branch [unknown]. *)
Theorem branch_is_ref_without_first_refs_heads {engine : Engine}
    (who : option Pusher) (r : string) (repo : option Repository)
    (cs : option (list Commit)) (w : world) :
  let p := mkPayload who (Some r) repo cs in
  let iso := clock w (reads w) in
  fits p = true ->
  outcome (Service.handlePushEvent (to_value p)) w
  = Normal (VString (message_text (parts_of p iso)))
  /\ (exists t, first_removed "refs/heads/" r t
                /\ part_branch (parts_of p iso) = if is_empty t then "unknown" else t)
  /\ (forall rest,
        part_branch (parts_of (mkPayload who (Some ("refs/heads/" ++ rest)) repo cs) iso)
        = if is_empty rest then "unknown" else rest)
  /\ outcome (Service.handlePushEvent (VObject [("ref", VString "refs/heads/main")])) w
     = Normal (VString (message_text
         (mkParts "Unknown" "unknown/unknown-repo" "main" 0 "  - None"
                  "No commit message provided" "  - None" "  - None" "  - None"
                  (time_text iso))))
  /\ outcome (Service.handlePushEvent (VObject [("ref", VUndefined)])) w
     = Normal (VString (message_text
         (mkParts "Unknown" "unknown/unknown-repo" "unknown" 0 "  - None"
                  "No commit message provided" "  - None" "  - None" "  - None"
                  (time_text iso)))).
Proof.
  intros p iso Hfits. split; [now apply handlePushEvent_encoded |].
  assert ("refs/heads/" <> EmptyString) as Hpattern by discriminate.
  split; [| split; [| split]].
  - destruct r as [| c r'].
    + exists EmptyString. split; [| reflexivity].
      right. split; [reflexivity |]. intros [| ? ?] after; discriminate.
    + exists (String_replace (String c r') "refs/heads/" EmptyString).
      split; [now apply String_replace_first_removed | reflexivity].
  - intros rest. cbn [parts_of part_branch]. unfold branch_text. cbn [ref non_empty].
    change (is_empty ("refs/heads/" ++ rest)) with false. cbn [or_else].
    now rewrite (String_replace_prefix "refs/heads/" rest Hpattern).
  - apply (handlePushEvent_encoded (mkPayload None (Some "refs/heads/main") None None)).
    reflexivity.
  - reflexivity.
Qed.

(** An instance: a push of one commit that adds two files to
    [refs/heads/feature/refs/heads/x] shows the branch [feature/refs/heads/x]. *)
Lemma branch_is_ref_without_first_refs_heads_witness :
  outcome (Service.handlePushEvent (engine := Sample.engine)
             (VObject [("ref", VString "refs/heads/feature/refs/heads/x");
                       ("commits", VArray [VObject [("added", VArray [VString "a";
                                                                       VString "b"])]])]))
          Sample.world0
  = Normal (VString (message_text
      (mkParts "Unknown" "unknown/unknown-repo" "feature/refs/heads/x" 1 "  - No message"
               "No commit message provided" ("  - a" ++ LF ++ "  - b") "  - None" "  - None"
               Sample.time))).
Proof.
  pose proof (branch_is_ref_without_first_refs_heads (engine := Sample.engine)
                None "refs/heads/feature/refs/heads/x" None
                (Some [Sample.commit_adding ["a"; "b"]]) Sample.world0) as H.
  cbv zeta in H. destruct (H eq_refl) as [Hrun _].
  exact (eq_trans Hrun eq_refl).
Defined.

(** C7, as stated, fails: for a commit whose message is empty the list does
    not show the (empty) first line of the message but [No message].  Nor is
    the list there for every commits sequence: for a commit with the message
    [a] that modifies a hundred and fifty thousand paths, the message is the
    fallback message. *)
Lemma empty_message_shows_placeholder :
  outcome (Service.handlePushEvent (engine := Sample.engine)
             (VObject [("commits", VArray [VObject [("message", VString EmptyString)]])]))
          Sample.world0
  = Normal (VString (message_text
      (Sample.parts_with "unknown" 1 "  - No message" "No commit message provided")))
  /\ first_lines_text [Sample.commit_with EmptyString] = "  - "
  /\ outcome (Service.handlePushEvent (engine := Sample.engine)
                (VObject [("commits", VArray [VObject [("message", VString EmptyString)]])]))
             Sample.world0
     <> Normal (VString (message_text
          (Sample.parts_with "unknown" 1 (first_lines_text [Sample.commit_with EmptyString])
                             "No commit message provided")))
  /\ outcome (Service.handlePushEvent (engine := Sample.engine)
                (VObject [("commits",
                           VArray [VObject [("message", VString "a");
                                            ("modified",
                                             VArray (repeat (VString "f") (150 * 1000)))]])]))
             Sample.world0
     = Normal (VString ("⚠️ *Push processing failed* ⚠️" ++ LF ++ "🕒 *At*: " ++ Sample.time)).
Proof.
  split; [| split; [| split]].
  - vm_compute. reflexivity.
  - reflexivity.
  - vm_compute. discriminate.
  - vm_compute. reflexivity.
Qed.

(** C7, amended: for every commits sequence none of whose file arrays holds
    more entries than a call takes arguments, the list of commit messages has
    one entry, prefixed ["  - "], for each of the first two commits and none
    for the others: the first line of the commit's message, or [No message]
    when the commit has no message or an empty one; with no commit it is the
    single line ["  - None"].  For the messages [a\nb], [c] and [d] it lists
    [a] and [c]. *)
Theorem commit_messages_list_first_two {engine : Engine} (p : PushPayload) (w : world) :
  let iso := clock w (reads w) in
  fits p = true ->
  outcome (Service.handlePushEvent (to_value p)) w
  = Normal (VString (message_text (parts_of p iso)))
  /\ part_messages (parts_of p iso)
     = match firstn 2 (commit_list p) with
       | [] => "  - None"
       | [c] => "  - " ++ message_shown "No message" c
       | c :: c' :: _ =>
           "  - " ++ message_shown "No message" c ++ LF
           ++ "  - " ++ message_shown "No message" c'
       end
  /\ (forall first rest a m d,
        message_shown "No message" (mkCommit (Some (String first rest)) a m d)
        = first_line (String first rest))
  /\ (forall a m d,
        message_shown "No message" (mkCommit (Some EmptyString) a m d) = "No message"
        /\ message_shown "No message" (mkCommit None a m d) = "No message")
  /\ outcome (Service.handlePushEvent
                (VObject [("commits",
                           VArray [VObject [("message", VString ("a" ++ LF ++ "b"))];
                                   VObject [("message", VString "c")];
                                   VObject [("message", VString "d")]])])) w
     = Normal (VString (message_text
         (mkParts "Unknown" "unknown/unknown-repo" "unknown" 3
                  ("  - a" ++ LF ++ "  - c") "a" "  - None" "  - None" "  - None"
                  (time_text iso)))).
Proof.
  intros iso Hfits. split; [now apply handlePushEvent_encoded |].
  split; [| split; [| split]].
  - cbn [parts_of part_messages]. unfold messages_text, bullets_or_none.
    destruct (commit_list p) as [| c [| c' l]]; [reflexivity | reflexivity |].
    cbn [firstn map lines]. unfold bullet. now rewrite !append_assoc.
  - reflexivity.
  - intros a m d. split; reflexivity.
  - apply (handlePushEvent_encoded
             (mkPayload None None None
                (Some [Sample.commit_with ("a" ++ LF ++ "b"); Sample.commit_with "c";
                       Sample.commit_with "d"]))).
    reflexivity.
Qed.

(** An instance: of three commits that change files, the first without a
    message, the messages of the first two are listed. *)
Lemma commit_messages_list_first_two_witness :
  outcome (Service.handlePushEvent (engine := Sample.engine)
             (VObject [("commits",
                        VArray [VObject [("added", VArray [VString "x"])];
                                VObject [("message", VString ("fix" ++ LF ++ "details"));
                                         ("modified", VArray [VString "y"])];
                                VObject [("message", VString "more");
                                         ("removed", VArray [VString "z"])]])]))
          Sample.world0
  = Normal (VString (message_text
      (mkParts "Unknown" "unknown/unknown-repo" "unknown" 3
               ("  - No message" ++ LF ++ "  - fix") "No commit message provided"
               "  - x" "  - y" "  - z" Sample.time))).
Proof.
  pose proof (commit_messages_list_first_two (engine := Sample.engine)
                (mkPayload None None None
                   (Some [mkCommit None (Some ["x"]) None None;
                          mkCommit (Some ("fix" ++ LF ++ "details")) None (Some ["y"]) None;
                          mkCommit (Some "more") None None (Some ["z"])]))
                Sample.world0) as H.
  cbv zeta in H. destruct (H eq_refl) as [Hrun _].
  exact (eq_trans Hrun eq_refl).
Defined.

(** C8, as stated, fails: a commit that adds a hundred and fifty thousand
    paths makes [addedFiles.push(...commit.added)] throw a [RangeError] (a
    call does not take that many arguments), and the fallback message is
    returned, which has no file section; the section built as described would
    hold the one path. *)
Lemma oversized_added_gives_fallback :
  let payload :=
    VObject [("commits",
              VArray [VObject [("added", VArray (repeat (VString "f") (150 * 1000)))]])] in
  outcome (Service.handlePushEvent (engine := Sample.engine) payload) Sample.world0
  = Normal (VString ("⚠️ *Push processing failed* ⚠️" ++ LF ++ "🕒 *At*: " ++ Sample.time))
  /\ bullets_or_none (firstn 3 (dedupe (repeat "f" (150 * 1000)))) = "  - f"
  /\ outcome (Service.handlePushEvent (engine := Sample.engine) payload) Sample.world0
     <> Normal (VString (message_text
          (mkParts "Unknown" "unknown/unknown-repo" "unknown" 1 "  - No message"
                   "No commit message provided"
                   (bullets_or_none (firstn 3 (dedupe (repeat "f" (150 * 1000)))))
                   "  - None" "  - None" Sample.time))).
Proof.
  cbv zeta. split; [| split].
  - vm_compute. reflexivity.
  - vm_compute. reflexivity.
  - vm_compute. discriminate.
Qed.

(** C8, amended: for every commits sequence none of whose file arrays holds
    more entries than a call takes arguments, each of the three file sections
    holds the files of its field concatenated across all the commits, without
    duplicates (every file once), cut to the first three, one per line with
    the prefix ["  - "], or the line ["  - None"] when there is none.  The
    added files [x], [x], [y] are shown as [x] and [y]; of [a], [b], [c], [d]
    three are shown. *)
Theorem file_sections_aggregate_all_commits {engine : Engine} (p : PushPayload) (w : world) :
  let iso := clock w (reads w) in
  let l := commit_list p in
  fits p = true ->
  outcome (Service.handlePushEvent (to_value p)) w
  = Normal (VString (message_text (parts_of p iso)))
  /\ part_added (parts_of p iso) = bullets_or_none (firstn 3 (dedupe (all_files added l)))
  /\ part_modified (parts_of p iso)
     = bullets_or_none (firstn 3 (dedupe (all_files modified l)))
  /\ part_removed (parts_of p iso)
     = bullets_or_none (firstn 3 (dedupe (all_files removed l)))
  /\ (forall field,
        NoDup (dedupe (all_files field l))
        /\ (forall x, In x (dedupe (all_files field l)) <-> In x (all_files field l))
        /\ List.length (firstn 3 (dedupe (all_files field l))) <= 3)
  /\ (forall field before after,
        all_files field (before ++ after)
        = (all_files field before ++ all_files field after)%list)
  /\ bullets_or_none [] = "  - None"
  /\ (forall x, bullets_or_none [x] = "  - " ++ x)
  /\ (forall x y, bullets_or_none [x; y] = "  - " ++ x ++ LF ++ "  - " ++ y)
  /\ (forall x y z, bullets_or_none [x; y; z]
                    = "  - " ++ x ++ LF ++ "  - " ++ y ++ LF ++ "  - " ++ z)
  /\ (4 <= argument_limit ->
      outcome (Service.handlePushEvent
                 (VObject [("commits",
                            VArray [VObject [("added",
                                              VArray [VString "x"; VString "x";
                                                      VString "y"])]])]))
              w
      = Normal (VString (message_text
          (mkParts "Unknown" "unknown/unknown-repo" "unknown" 1 "  - No message"
                   "No commit message provided" ("  - x" ++ LF ++ "  - y")
                   "  - None" "  - None" (time_text iso))))
      /\ outcome (Service.handlePushEvent
                    (VObject [("commits",
                               VArray [VObject [("added",
                                                 VArray [VString "a"; VString "b";
                                                         VString "c"; VString "d"])]])]))
                 w
         = Normal (VString (message_text
             (mkParts "Unknown" "unknown/unknown-repo" "unknown" 1 "  - No message"
                      "No commit message provided"
                      ("  - a" ++ LF ++ "  - b" ++ LF ++ "  - c")
                      "  - None" "  - None" (time_text iso))))).
Proof.
  intros iso l Hfits. split; [now apply handlePushEvent_encoded |].
  do 3 (split; [reflexivity |]).
  split.
  { intros field. split; [apply dedupe_NoDup |]. split; [intros x; apply dedupe_In |].
    apply firstn_le_length. }
  split; [intros; apply all_files_app |].
  split; [reflexivity |].
  split; [reflexivity |].
  split.
  { intros x y. unfold bullets_or_none, bullet. cbn [map lines].
    now rewrite !append_assoc. }
  split.
  { intros x y z. unfold bullets_or_none, bullet. cbn [map lines].
    now rewrite !append_assoc. }
  intros Hlimit. split.
  - apply (handlePushEvent_encoded
             (mkPayload None None None (Some [Sample.commit_adding ["x"; "x"; "y"]]))).
    apply (fits_of_lengths 4); [exact Hlimit | reflexivity].
  - apply (handlePushEvent_encoded
             (mkPayload None None None (Some [Sample.commit_adding ["a"; "b"; "c"; "d"]]))).
    apply (fits_of_lengths 4); [exact Hlimit | reflexivity].
Qed.

(** An instance: the files of a third commit are shown with those of the
    first two, each section on its own. *)
Lemma file_sections_aggregate_all_commits_witness :
  outcome (Service.handlePushEvent (engine := Sample.engine)
             (VObject [("commits",
                        VArray [VObject [("added", VArray [VString "x"; VString "x"]);
                                         ("modified", VArray []);
                                         ("removed", VArray [VString "r"])];
                                VObject [("added", VArray [VString "y"]);
                                         ("modified", VArray [VString "m"]);
                                         ("removed", VArray [])];
                                VObject [("added", VArray [VString "x"; VString "z";
                                                           VString "t"]);
                                         ("modified", VArray [VString "m"; VString "n"]);
                                         ("removed", VArray [])]])]))
          Sample.world0
  = Normal (VString (message_text
      (mkParts "Unknown" "unknown/unknown-repo" "unknown" 3
               ("  - No message" ++ LF ++ "  - No message") "No commit message provided"
               ("  - x" ++ LF ++ "  - y" ++ LF ++ "  - z")
               ("  - m" ++ LF ++ "  - n")
               "  - r" Sample.time))).
Proof.
  pose proof (file_sections_aggregate_all_commits (engine := Sample.engine)
                (mkPayload None None None
                   (Some [Sample.commit_changing ["x"; "x"] [] ["r"];
                          Sample.commit_changing ["y"] ["m"] [];
                          Sample.commit_changing ["x"; "z"; "t"] ["m"; "n"] []]))
                Sample.world0) as H.
  cbv zeta in H. destruct (H eq_refl) as [Hrun _].
  exact (eq_trans Hrun eq_refl).
Defined.

(** C10, as stated, fails: when the second commit removes a hundred and
    fifty thousand paths, [removedFiles.push(...commit.removed)] throws a
    [RangeError] and the fallback message is returned: no file is shown, in
    any order, where the earliest three removed files would be [a], [b] and
    [c]. *)
Lemma oversized_removed_shows_no_file :
  let payload :=
    VObject [("commits",
              VArray [VObject [("removed", VArray [VString "a"; VString "b"])];
                      VObject [("removed",
                                VArray (VString "c" :: repeat (VString "d") (150 * 1000)))]])]
  in
  outcome (Service.handlePushEvent (engine := Sample.engine) payload) Sample.world0
  = Normal (VString ("⚠️ *Push processing failed* ⚠️" ++ LF ++ "🕒 *At*: " ++ Sample.time))
  /\ firstn 3 (dedupe (["a"; "b"] ++ "c" :: repeat "d" (150 * 1000))) = ["a"; "b"; "c"]
  /\ outcome (Service.handlePushEvent (engine := Sample.engine) payload) Sample.world0
     <> Normal (VString (message_text
          (mkParts "Unknown" "unknown/unknown-repo" "unknown" 2
                   ("  - No message" ++ LF ++ "  - No message") "No commit message provided"
                   "  - None" "  - None" ("  - a" ++ LF ++ "  - b" ++ LF ++ "  - c")
                   Sample.time))).
Proof.
  cbv zeta. split; [| split].
  - vm_compute. reflexivity.
  - vm_compute. reflexivity.
  - vm_compute. discriminate.
Qed.

(** C10, amended: for every commits sequence none of whose file arrays holds
    more entries than a call takes arguments, the files shown in a section
    are in the order in which they first occur in the concatenation of the
    field over the commits (commit after commit, each commit's array in its
    own order), and the three that are kept are the three that occur first:
    every file shown first occurs before every file that is left out.  Of
    the added files [b], [a], [b] of one commit and [c], [a], [d], [e] of the
    next, [b], [a] and [c] are shown, in this order. *)
Theorem shown_files_keep_first_occurrence_order {engine : Engine}
    (p : PushPayload) (w : world) :
  let iso := clock w (reads w) in
  let l := commit_list p in
  fits p = true ->
  outcome (Service.handlePushEvent (to_value p)) w
  = Normal (VString (message_text (parts_of p iso)))
  /\ part_added (parts_of p iso) = bullets_or_none (files_shown added l)
  /\ part_modified (parts_of p iso) = bullets_or_none (files_shown modified l)
  /\ part_removed (parts_of p iso) = bullets_or_none (files_shown removed l)
  /\ (forall field before c after,
        all_files field (before ++ c :: after)
        = (all_files field before ++ files_of field c ++ all_files field after)%list)
  /\ (forall field,
        NoDup (files_shown field l)
        /\ StronglySorted (earlier (all_files field l)) (files_shown field l)
        /\ (forall x, In x (files_shown field l) -> In x (all_files field l))
        /\ (forall x y,
              In x (files_shown field l) ->
              In y (all_files field l) ->
              ~ In y (files_shown field l) ->
              earlier (all_files field l) x y)
        /\ (List.length (dedupe (all_files field l)) <= 3 ->
            files_shown field l = dedupe (all_files field l)))
  /\ (forall x y z, bullets_or_none [x; y; z]
                    = "  - " ++ x ++ LF ++ "  - " ++ y ++ LF ++ "  - " ++ z)
  /\ (4 <= argument_limit ->
      outcome (Service.handlePushEvent
                 (VObject [("commits",
                            VArray [VObject [("added",
                                              VArray [VString "b"; VString "a";
                                                      VString "b"])];
                                    VObject [("added",
                                              VArray [VString "c"; VString "a";
                                                      VString "d"; VString "e"])]])]))
              w
      = Normal (VString (message_text
          (mkParts "Unknown" "unknown/unknown-repo" "unknown" 2
                   ("  - No message" ++ LF ++ "  - No message")
                   "No commit message provided"
                   ("  - b" ++ LF ++ "  - a" ++ LF ++ "  - c")
                   "  - None" "  - None" (time_text iso))))).
Proof.
  intros iso l Hfits. split; [now apply handlePushEvent_encoded |].
  do 3 (split; [reflexivity |]).
  split.
  { intros field before c after. rewrite all_files_app. reflexivity. }
  split.
  { intros field. split; [apply files_shown_NoDup |].
    split; [apply files_shown_sorted |].
    split; [apply files_shown_In |].
    split; [apply files_shown_earliest | apply files_shown_all]. }
  split.
  { intros x y z. unfold bullets_or_none, bullet. cbn [map lines].
    now rewrite !append_assoc. }
  intros Hlimit.
  apply (handlePushEvent_encoded
           (mkPayload None None None
              (Some [Sample.commit_adding ["b"; "a"; "b"];
                     Sample.commit_adding ["c"; "a"; "d"; "e"]]))).
  apply (fits_of_lengths 4); [exact Hlimit | reflexivity].
Qed.

(** An instance: commits that modify [n], [m] and then [m], [k], [n], [j]
    and remove [q] and then [p], [q] show the modified files [n], [m], [k]
    and the removed files [q], [p], in these orders; [k] first occurs before
    [j], which is left out. *)
Lemma shown_files_keep_first_occurrence_order_witness :
  outcome (Service.handlePushEvent (engine := Sample.engine)
             (VObject [("commits",
                        VArray [VObject [("added", VArray []);
                                         ("modified", VArray [VString "n"; VString "m"]);
                                         ("removed", VArray [VString "q"])];
                                VObject [("added", VArray []);
                                         ("modified", VArray [VString "m"; VString "k";
                                                              VString "n"; VString "j"]);
                                         ("removed", VArray [VString "p";
                                                             VString "q"])]])]))
          Sample.world0
  = Normal (VString (message_text
      (mkParts "Unknown" "unknown/unknown-repo" "unknown" 2
               ("  - No message" ++ LF ++ "  - No message") "No commit message provided"
               "  - None"
               ("  - n" ++ LF ++ "  - m" ++ LF ++ "  - k")
               ("  - q" ++ LF ++ "  - p") Sample.time)))
  /\ earlier (all_files modified [Sample.commit_changing [] ["n"; "m"] ["q"];
                                  Sample.commit_changing [] ["m"; "k"; "n"; "j"] ["p"; "q"]])
             "k" "j".
Proof.
  pose proof (shown_files_keep_first_occurrence_order (engine := Sample.engine)
                (mkPayload None None None
                   (Some [Sample.commit_changing [] ["n"; "m"] ["q"];
                          Sample.commit_changing [] ["m"; "k"; "n"; "j"] ["p"; "q"]]))
                Sample.world0) as H.
  cbv zeta in H. destruct (H eq_refl) as (Hrun & _ & _ & _ & _ & Horder & _).
  split; [exact (eq_trans Hrun eq_refl) |].
  destruct (Horder modified) as (_ & _ & _ & Hearliest & _).
  apply Hearliest.
  - cbn. auto.
  - cbn. auto 10.
  - cbn. intros [H' | [H' | [H' | []]]]; discriminate H'.
Defined.

(* ================================================================== *)
(** * Further properties of the two verifiers *)
(* ================================================================== *)

Lemma fold_lor_zero (pairs : list (Z * Z)) : forall acc,
  fold_left (fun acc xy => Z.lor acc (Z.lxor (fst xy) (snd xy))) pairs acc = 0%Z ->
  acc = 0%Z /\ Forall (fun xy => fst xy = snd xy) pairs.
Proof.
  induction pairs as [| [x y] pairs IH]; intros acc H; cbn [fold_left fst snd] in H.
  - split; [assumption | constructor].
  - apply IH in H as [H Hall]. apply Z.lor_eq_0_iff in H as [Hacc Hxy].
    apply Z.lxor_eq in Hxy. split; [assumption |].
    constructor; [exact Hxy | exact Hall].
Qed.

Lemma combine_equal (a : Buffer) : forall b,
  List.length a = List.length b ->
  Forall (fun xy => fst xy = snd xy) (combine a b) -> a = b.
Proof.
  induction a as [| x a IH]; intros [| y b] Hlen Hall; try discriminate; [reflexivity |].
  cbn [combine] in Hall. inversion Hall as [| ? ? Hxy Hrest]; subst.
  cbn [fst snd] in Hxy. subst y. f_equal. apply IH; [| assumption].
  now injection Hlen.
Qed.

Lemma timingSafeEqual_true (a b : Buffer) : timingSafeEqual a b = Normal true <-> a = b.
Proof.
  split; [| intros ->; apply timingSafeEqual_same].
  unfold timingSafeEqual.
  destruct (Nat.eqb_spec (List.length a) (List.length b)) as [Hlen |]; [| discriminate].
  intros [= H]. apply Z.eqb_eq, fold_lor_zero in H as [_ Hall].
  now apply combine_equal.
Qed.

Lemma timingSafeEqual_lengths (a b : Buffer) :
  List.length a = List.length b -> exists r, timingSafeEqual a b = Normal r.
Proof. intros H. unfold timingSafeEqual. rewrite H, Nat.eqb_refl. eauto. Qed.

Lemma timingSafeEqual_sym (a b : Buffer) : timingSafeEqual a b = timingSafeEqual b a.
Proof.
  destruct (Nat.eqb_spec (List.length a) (List.length b)) as [Hlen | Hlen].
  - destruct (timingSafeEqual_lengths a b Hlen) as [x Hx].
    destruct (timingSafeEqual_lengths b a (eq_sym Hlen)) as [y Hy].
    rewrite Hx, Hy. f_equal.
    destruct x, y; try reflexivity.
    + apply timingSafeEqual_true in Hx. subst b. rewrite timingSafeEqual_same in Hy.
      now injection Hy.
    + apply timingSafeEqual_true in Hy. subst b. rewrite timingSafeEqual_same in Hx.
      now injection Hx.
  - unfold timingSafeEqual.
    apply Nat.eqb_neq in Hlen as Hab. rewrite Hab.
    assert (List.length b <> List.length a) as Hba by congruence.
    apply Nat.eqb_neq in Hba. now rewrite Hba.
Qed.

Lemma Buffer_from_string_inj (s t : string) :
  Buffer_from_string s = Buffer_from_string t -> s = t.
Proof.
  unfold Buffer_from_string. revert t.
  induction s as [| c s IH]; intros [| d t] H; cbn in H; try discriminate; [reflexivity |].
  injection H as Hc Hrest. f_equal; [| now apply IH].
  apply N2Z.inj in Hc.
  rewrite <- (ascii_N_embedding c), <- (ascii_N_embedding d). now rewrite Hc.
Qed.

Lemma verifyWebhook_try_run (signature : option string) (digest : string) w :
  Route.verifyWebhook_try signature digest w
  = (match signature with
     | None => Throw TypeError
     | Some s =>
         if (length s =? length digest)%nat then
           timingSafeEqual (Buffer_from_string s) (Buffer_from_string digest)
         else Normal false
     end, w).
Proof.
  destruct signature as [s |]; [| reflexivity].
  unfold Route.verifyWebhook_try, Buffer_from.
  rewrite !bind_lift_Normal, !length_Buffer_from_string.
  destruct (length s =? length digest)%nat; reflexivity.
Qed.

(** X1: [verifyWebhook] of [route.js] returns [true] for one header value
    only: the secret must be set and not empty, and the header must be
    ["sha256="] followed by the HMAC of the body under the secret. *)
Theorem route_verify_true_iff (secret : option string) (body : string)
    (signature : option string) (w : world) :
  outcome (Route.verifyWebhook secret body signature) w = Normal true
  <-> exists key,
        secret = Some key /\ is_empty key = false
        /\ signature = Some (expected_signature key body).
Proof.
  split.
  - destruct secret as [key |]; [| discriminate].
    destruct (is_empty key) eqn:Hkey; [destruct key; discriminate |].
    rewrite verifyWebhook_with_secret by assumption.
    unfold outcome, try_catch. rewrite verifyWebhook_try_run.
    destruct signature as [s |]; [| discriminate].
    destruct (length s =? length _)%nat; [| discriminate].
    destruct (timingSafeEqual _ _) as [[|] | e] eqn:Heq; try discriminate.
    intros _. apply timingSafeEqual_true, Buffer_from_string_inj in Heq.
    exists key. now subst s.
  - intros (key & -> & Hkey & ->).
    rewrite verifyWebhook_with_secret by assumption.
    unfold outcome, try_catch. now rewrite verifyWebhook_try_same.
Qed.

(** An instance: what accepting the sample request says of its header. *)
Lemma route_verify_true_iff_witness :
  exists key,
    Some Sample.secret = Some key /\ is_empty key = false
    /\ Some (expected_signature Sample.secret Sample.rawBody)
       = Some (expected_signature key Sample.rawBody).
Proof.
  apply (proj1 (route_verify_true_iff (Some Sample.secret) Sample.rawBody
                  (Some (expected_signature Sample.secret Sample.rawBody))
                  Sample.world0)).
  vm_compute. reflexivity.
Defined.

(** X2: [verifyWebhook] of [route.js] writes to the console only when the
    secret is unset or empty, and then exactly the line
    [GITHUB_WEBHOOK_SECRET is not set]; it never reads the clock. *)
Theorem route_verify_logs_only_missing_secret (secret : option string) (body : string)
    (signature : option string) (w : world) :
  snd (Route.verifyWebhook secret body signature w)
  = match secret with
    | Some (String _ _) => w
    | _ => mkWorld (console w ++ ["GITHUB_WEBHOOK_SECRET is not set"]) (clock w) (reads w)
    end.
Proof.
  destruct secret as [[| c key] |]; try reflexivity.
  rewrite verifyWebhook_with_secret by reflexivity.
  unfold try_catch. rewrite verifyWebhook_try_run.
  destruct signature as [s |]; [| reflexivity].
  destruct (length s =? length _)%nat; [| reflexivity].
  destruct (timingSafeEqual _ _); reflexivity.
Qed.

Lemma service_verifyWebhook_run (secret : option string) (payload : value)
    (signature : option string) (w : world) :
  Service.verifyWebhook secret payload signature w
  = match secret, JSON.stringify payload, signature with
    | Some key, Some data, Some s =>
        match timingSafeEqual (Buffer_from_string (expected_signature key data))
                              (Buffer_from_string s) with
        | Normal b => (Normal b, w)
        | Throw e =>
            (Normal false,
             mkWorld (console w ++ ["Webhook verification error: " ++ error_name e])
                     (clock w) (reads w))
        end
    | _, _, _ =>
        (Normal false,
         mkWorld (console w ++ ["Webhook verification error: TypeError"])
                 (clock w) (reads w))
    end.
Proof.
  unfold Service.verifyWebhook, try_catch.
  destruct secret as [key |]; [| reflexivity].
  destruct (JSON.stringify payload) as [data |]; [| reflexivity].
  destruct signature as [s |]; [| reflexivity].
  rewrite !bind_lift_Normal. unfold Buffer_from. rewrite !bind_lift_Normal.
  unfold lift, expected_signature.
  destruct (timingSafeEqual _ _); reflexivity.
Qed.

(** X3: [verifyWebhook] of the service never throws, and it returns [true]
    exactly when the secret is defined (it may be empty), the payload has a
    JSON text, and the header is ["sha256="] followed by the HMAC of that
    text under the secret. *)
Theorem service_verify_true_iff (secret : option string) (payload : value)
    (signature : option string) (w : world) :
  (exists b, outcome (Service.verifyWebhook secret payload signature) w = Normal b)
  /\ (outcome (Service.verifyWebhook secret payload signature) w = Normal true
      <-> exists key data,
            secret = Some key /\ JSON.stringify payload = Some data
            /\ signature = Some (expected_signature key data)).
Proof.
  unfold outcome. rewrite service_verifyWebhook_run. split.
  - destruct secret, (JSON.stringify payload), signature; try (now exists false).
    destruct (timingSafeEqual _ _) as [b | e]; [now exists b | now exists false].
  - split.
    + destruct secret as [key |], (JSON.stringify payload) as [data |],
               signature as [s |]; try discriminate.
      destruct (timingSafeEqual _ _) as [[|] | e] eqn:Heq; try discriminate.
      intros _. apply timingSafeEqual_true, Buffer_from_string_inj in Heq.
      exists key, data. now subst s.
    + intros (key & data & -> & Hdata & ->). rewrite Hdata.
      now rewrite timingSafeEqual_same.
Qed.

(** An instance: the empty secret is accepted by this verifier. *)
Lemma service_verify_true_iff_witness :
  outcome (Service.verifyWebhook (Some EmptyString) Sample.parsedBody
             (Some (expected_signature EmptyString Sample.reserialized))) Sample.world0
  = Normal true.
Proof.
  apply (proj2 (proj2 (service_verify_true_iff (Some EmptyString) Sample.parsedBody
                         (Some (expected_signature EmptyString Sample.reserialized))
                         Sample.world0))).
  exists EmptyString, Sample.reserialized. repeat split; reflexivity.
Defined.

(** X4: when [verifyWebhook] of the service fails on an exception it says so
    on the console: a [TypeError] for an undefined secret, a payload without
    JSON text ([undefined]) or a missing header, and a [RangeError] for a
    header whose length is not that of the digest (there is no length check
    before [timingSafeEqual]); a header of the right length is compared
    without a word. *)
Theorem service_verify_logs_exceptions (key data s : string) (payload : value) (w : world) :
  let logged (name : string) :=
    mkWorld (console w ++ ["Webhook verification error: " ++ name]) (clock w) (reads w) in
  (forall signature,
     Service.verifyWebhook None payload signature w = (Normal false, logged "TypeError"))
  /\ (forall secret signature,
        Service.verifyWebhook secret VUndefined signature w
        = (Normal false, logged "TypeError"))
  /\ (forall secret,
        Service.verifyWebhook secret payload None w = (Normal false, logged "TypeError"))
  /\ (JSON.stringify payload = Some data ->
      length s <> length (expected_signature key data) ->
      Service.verifyWebhook (Some key) payload (Some s) w
      = (Normal false, logged "RangeError"))
  /\ (JSON.stringify payload = Some data ->
      length s = length (expected_signature key data) ->
      snd (Service.verifyWebhook (Some key) payload (Some s) w) = w).
Proof.
  intros logged. split; [| split; [| split; [| split]]].
  - intros signature. reflexivity.
  - intros [k |] signature; reflexivity.
  - intros secret. rewrite service_verifyWebhook_run.
    destruct secret, (JSON.stringify payload); reflexivity.
  - intros Hdata Hlen. rewrite service_verifyWebhook_run, Hdata.
    unfold timingSafeEqual. rewrite !length_Buffer_from_string.
    assert (length (expected_signature key data) <> length s) as Hne by congruence.
    apply Nat.eqb_neq in Hne. now rewrite Hne.
  - intros Hdata Hlen. rewrite service_verifyWebhook_run, Hdata.
    destruct (timingSafeEqual_lengths (Buffer_from_string (expected_signature key data))
                (Buffer_from_string s)) as [b Hb].
    { now rewrite !length_Buffer_from_string. }
    now rewrite Hb.
Qed.

(** An instance: a header that is too short is reported as a [RangeError]. *)
Lemma service_verify_logs_exceptions_witness :
  Service.verifyWebhook (Some Sample.secret) Sample.parsedBody (Some "sha256=00")
                        Sample.world0
  = (Normal false,
     mkWorld (console Sample.world0 ++ ["Webhook verification error: " ++ "RangeError"])
             (clock Sample.world0) (reads Sample.world0)).
Proof.
  refine (proj1 (proj2 (proj2 (proj2 (service_verify_logs_exceptions
            Sample.secret Sample.reserialized "sha256=00" Sample.parsedBody
            Sample.world0)))) eq_refl _).
  vm_compute. lia.
Defined.

(** X5: on a body that [JSON.stringify] gives back unchanged, and with a
    secret that is not empty, the two verifiers return the same answer for
    every header. *)
Theorem verifiers_agree_on_stable_bodies (key body : string) (payload : value)
    (signature : option string) (w : world) :
  is_empty key = false ->
  JSON.stringify payload = Some body ->
  outcome (Service.verifyWebhook (Some key) payload signature) w
  = outcome (Route.verifyWebhook (Some key) body signature) w.
Proof.
  intros Hkey Hdata. unfold outcome.
  rewrite service_verifyWebhook_run, Hdata.
  rewrite verifyWebhook_with_secret by assumption.
  unfold try_catch. rewrite verifyWebhook_try_run.
  destruct signature as [s |]; [| reflexivity].
  fold (expected_signature key body).
  rewrite (timingSafeEqual_sym (Buffer_from_string (expected_signature key body))).
  unfold timingSafeEqual at 1. rewrite !length_Buffer_from_string.
  destruct (length s =? length (expected_signature key body))%nat eqn:Hlen;
    [| reflexivity].
  unfold timingSafeEqual. rewrite !length_Buffer_from_string, Hlen. reflexivity.
Qed.

(** An instance: the sample payload and its JSON text. *)
Lemma verifiers_agree_on_stable_bodies_witness :
  outcome (Service.verifyWebhook (Some Sample.secret) Sample.parsedBody
             (Some "sha256=00")) Sample.world0
  = outcome (Route.verifyWebhook (Some Sample.secret) Sample.reserialized
               (Some "sha256=00")) Sample.world0.
Proof.
  apply (verifiers_agree_on_stable_bodies Sample.secret Sample.reserialized
           Sample.parsedBody (Some "sha256=00") Sample.world0); reflexivity.
Defined.

(* ================================================================== *)
(** * Further properties of the formatter *)
(* ================================================================== *)

(** X6: for a payload none of whose file arrays holds more entries than a
    call takes arguments, the repository shown is its [full_name]; without
    one (or with an empty one) its [name]; without either, or without a
    repository at all, [unknown/unknown-repo]. *)
Theorem repository_shown_falls_back {engine : Engine} (p : PushPayload) (w : world) :
  let iso := clock w (reads w) in
  fits p = true ->
  outcome (Service.handlePushEvent (to_value p)) w
  = Normal (VString (message_text (parts_of p iso)))
  /\ part_repository (parts_of p iso)
     = match repository p with
       | None => "unknown/unknown-repo"
       | Some r =>
           match repo_full_name r, repo_name r with
           | Some (String c full), _ => String c full
           | _, Some (String c short) => String c short
           | _, _ => "unknown/unknown-repo"
           end
       end.
Proof.
  intros iso Hfits. split; [now apply handlePushEvent_encoded |].
  cbn [parts_of part_repository]. unfold repository_text.
  destruct (repository p) as [[[[| a n] |] [[| b f] |]] |]; reflexivity.
Qed.

(** An instance: a repository with an empty [full_name] is shown by its
    [name], in a push that adds two files. *)
Lemma repository_shown_falls_back_witness :
  outcome (Service.handlePushEvent (engine := Sample.engine)
             (VObject [("repository", VObject [("name", VString "bot");
                                               ("full_name", VString EmptyString)]);
                       ("commits", VArray [VObject [("added", VArray [VString "a";
                                                                       VString "b"])]])]))
          Sample.world0
  = Normal (VString (message_text
      (mkParts "Unknown" "bot" "unknown" 1 "  - No message"
               "No commit message provided" ("  - a" ++ LF ++ "  - b") "  - None" "  - None"
               Sample.time))).
Proof.
  pose proof (repository_shown_falls_back (engine := Sample.engine)
                (mkPayload None None (Some (mkRepository (Some "bot") (Some EmptyString)))
                   (Some [Sample.commit_adding ["a"; "b"]]))
                Sample.world0) as H.
  cbv zeta in H. destruct (H eq_refl) as [Hrun _].
  exact (eq_trans Hrun eq_refl).
Defined.

(** X7: for a payload none of whose file arrays holds more entries than a
    call takes arguments, the top commit shown is the first line of the
    message of the first commit, whatever the other commits are; with no
    commit, or a first commit without message or with an empty one, it is
    [No commit message provided]. *)
Theorem top_commit_is_first_line_of_first_message {engine : Engine}
    (p : PushPayload) (w : world) :
  let iso := clock w (reads w) in
  fits p = true ->
  outcome (Service.handlePushEvent (to_value p)) w
  = Normal (VString (message_text (parts_of p iso)))
  /\ part_top (parts_of p iso)
     = match commit_list p with
       | [] => "No commit message provided"
       | c :: _ =>
           match message c with
           | Some (String a m) => first_line (String a m)
           | _ => "No commit message provided"
           end
       end.
Proof.
  intros iso Hfits. split; [now apply handlePushEvent_encoded |].
  cbn [parts_of part_top]. unfold top_text, message_shown.
  destruct (commit_list p) as [| c l]; [reflexivity |].
  destruct (message c) as [[| a m] |]; reflexivity.
Qed.

(** An instance: two commits with files; the top commit is the first line of
    the first one's message. *)
Lemma top_commit_is_first_line_of_first_message_witness :
  outcome (Service.handlePushEvent (engine := Sample.engine)
             (VObject [("commits",
                        VArray [VObject [("message", VString ("top" ++ LF ++ "rest"));
                                         ("modified", VArray [VString "a"])];
                                VObject [("message", VString "next");
                                         ("modified", VArray [VString "b"])]])]))
          Sample.world0
  = Normal (VString (message_text
      (mkParts "Unknown" "unknown/unknown-repo" "unknown" 2
               ("  - top" ++ LF ++ "  - next") "top" "  - None" ("  - a" ++ LF ++ "  - b")
               "  - None" Sample.time))).
Proof.
  pose proof (top_commit_is_first_line_of_first_message (engine := Sample.engine)
                (mkPayload None None None
                   (Some [mkCommit (Some ("top" ++ LF ++ "rest")) None (Some ["a"]) None;
                          mkCommit (Some "next") None (Some ["b"]) None]))
                Sample.world0) as H.
  cbv zeta in H. destruct (H eq_refl) as [Hrun _].
  exact (eq_trans Hrun eq_refl).
Defined.

(** ** Payloads that make the body of the [try] throw *)

Lemma throws_early_lift_Throw {A B} (e : error) (k : A -> M B) w :
  throws_early (bind (lift (@Throw A e)) k) w.
Proof. exists e, w. repeat split. Qed.

Lemma throws_early_console_log {B} line (k : unit -> M B) w :
  throws_early (k tt) (mkWorld (console w ++ [line]) (clock w) (reads w)) ->
  throws_early (bind (console_log line) k) w.
Proof. intros (e & w' & Hrun & Hclock & Hreads). exists e, w'. repeat split; assumption. Qed.

Lemma throws_early_fallback {engine : Engine} payload w :
  throws_early (Service.handlePushEvent_try payload) w ->
  outcome (Service.handlePushEvent payload) w
  = Normal (VString (failure_text (clock w (reads w)))).
Proof.
  intros (e & w' & Hrun & Hclock & Hreads).
  unfold outcome, Service.handlePushEvent, try_catch.
  rewrite Hrun, handlePushEvent_catch_run. cbn [fst]. now rewrite Hclock, Hreads.
Qed.

Lemma Get_of_object properties key : exists x, Get (VObject properties) key = Normal x.
Proof. cbn [Get]. destruct (own_property properties key); eauto. Qed.

(** One step of the body: a pure step that throws ends the run, one that
    returns is passed on. *)
Ltac early_step :=
  cbv zeta;
  lazymatch goal with
  | |- throws_early (bind (lift ?c) _) _ =>
      let H := fresh "Hstep" in
      destruct c eqn:H;
      [rewrite bind_lift_Normal | apply throws_early_lift_Throw]
  | |- throws_early (bind (console_log _) _) _ => apply throws_early_console_log
  end.

(** X8: a [ref] that is truthy and not a string (a number, [true], an array,
    an object) makes [ref.replace] throw: the whole message is replaced by
    the fallback message, and nothing but the error is logged. *)
Theorem non_string_ref_gives_fallback {engine : Engine}
    (properties : list (string * value)) (r : value) (w : world) :
  own_property properties "ref" = Some r ->
  ToBoolean r = true ->
  match r with VString _ => False | _ => True end ->
  Service.handlePushEvent (VObject properties) w
  = (Normal (VString (failure_text (clock w (reads w)))),
     mkWorld (console w ++ ["Error parsing push event: TypeError"])
             (clock w) (S (reads w))).
Proof.
  intros Href Htruthy Hkind.
  unfold Service.handlePushEvent, try_catch, Service.handlePushEvent_try.
  destruct (Get_of_object properties "pusher") as [x1 ->].
  destruct (Get_of_object properties "repository") as [x3 ->].
  destruct (Get_of_object properties "commits") as [x4 ->].
  cbn [Get]. rewrite Href. rewrite !bind_lift_Normal. cbv zeta.
  replace (JS_or r (VString "refs/heads/unknown")) with r
    by (unfold JS_or; now rewrite Htruthy).
  assert (call_replace r "refs/heads/" EmptyString = Throw TypeError) as ->
    by (destruct r; [reflexivity .. | contradiction | reflexivity | reflexivity]).
  reflexivity.
Qed.

(** An instance: a numeric ref. *)
Lemma non_string_ref_gives_fallback_witness :
  Service.handlePushEvent (engine := Sample.engine) (VObject [("ref", VNumber "5")])
                          Sample.world0
  = (Normal (VString (failure_text (clock Sample.world0 (reads Sample.world0)))),
     mkWorld (console Sample.world0 ++ ["Error parsing push event: TypeError"])
             (clock Sample.world0) (S (reads Sample.world0))).
Proof.
  apply (non_string_ref_gives_fallback (engine := Sample.engine)
           [("ref", VNumber "5")] (VNumber "5") Sample.world0);
    [reflexivity | reflexivity | exact I].
Defined.

Lemma forEach_throws_on_nullish {engine : Engine} (commits : list value) : forall files,
  In VNull commits \/ In VUndefined commits ->
  exists e, Service.forEach commits files = Throw e.
Proof.
  induction commits as [| c commits IH]; intros files Hin.
  - destruct Hin as [[] | []].
  - cbn [Service.forEach].
    destruct (Service.collect files c) as [files' | e] eqn:Hc; [| now exists e].
    cbn [cbind]. apply IH.
    destruct Hin as [[-> | H] | [-> | H]]; try discriminate Hc; auto.
Qed.

(** X9: a commits array that holds [null] (or [undefined]) anywhere, even
    past the second commit, makes the body throw: the result is the fallback
    message, whatever the rest of the payload is. *)
Theorem nullish_commit_gives_fallback {engine : Engine}
    (payload : value) (commits : list value) (w : world) :
  Get payload "commits" = Normal (VArray commits) ->
  In VNull commits \/ In VUndefined commits ->
  outcome (Service.handlePushEvent payload) w
  = Normal (VString (failure_text (clock w (reads w)))).
Proof.
  intros Hcommits Hin. apply throws_early_fallback.
  unfold Service.handlePushEvent_try. rewrite Hcommits.
  do 3 early_step. rewrite bind_lift_Normal.
  do 3 early_step. early_step. do 5 early_step.
  destruct (forEach_throws_on_nullish commits (Service.mkFiles [] [] []) Hin) as [e ->].
  apply throws_early_lift_Throw.
Qed.

(** An instance: the third commit is [null]. *)
Lemma nullish_commit_gives_fallback_witness :
  outcome (Service.handlePushEvent (engine := Sample.engine)
             (VObject [("commits", VArray [VObject []; VObject []; VNull])]))
          Sample.world0
  = Normal (VString (failure_text (clock Sample.world0 (reads Sample.world0)))).
Proof.
  apply (nullish_commit_gives_fallback (engine := Sample.engine)
           _ [VObject []; VObject []; VNull] Sample.world0).
  - reflexivity.
  - left. cbn. auto.
Defined.

(** X10: for a payload of the documented shape, none of whose file arrays
    holds more entries than a call takes arguments, the formatter logs one
    line, [Processing <count> commits for push by @<pusher> to <branch>] with
    the count of all the commits, and reads the clock once. *)
Theorem handlePushEvent_logs_one_line {engine : Engine} (p : PushPayload) (w : world) :
  fits p = true ->
  snd (Service.handlePushEvent (to_value p) w)
  = mkWorld (console w
             ++ ["Processing " ++ Number_toString (List.length (commit_list p))
                 ++ " commits for push by @" ++ part_pusher (parts_of p EmptyString)
                 ++ " to " ++ part_branch (parts_of p EmptyString)])
            (clock w) (S (reads w)).
Proof.
  intros Hfits. unfold Service.handlePushEvent, try_catch.
  now rewrite handlePushEvent_try_encoded.
Qed.

(** An instance: a push of three commits by [ann] to [main]. *)
Lemma handlePushEvent_logs_one_line_witness :
  snd (Service.handlePushEvent (engine := Sample.engine)
         (VObject [("pusher", VObject [("name", VString "ann")]);
                   ("ref", VString "refs/heads/main");
                   ("commits", VArray [VObject [("added", VArray [VString "a"])];
                                       VObject [("added", VArray [VString "b"])];
                                       VObject [("added", VArray [VString "c"])]])])
         Sample.world0)
  = mkWorld ["Processing 3 commits for push by @ann to main"] (fun _ => Sample.iso) 1.
Proof.
  pose proof (handlePushEvent_logs_one_line (engine := Sample.engine)
                (mkPayload (Some (mkPusher (Some "ann"))) (Some "refs/heads/main") None
                   (Some [Sample.commit_adding ["a"]; Sample.commit_adding ["b"];
                          Sample.commit_adding ["c"]]))
                Sample.world0 eq_refl) as H.
  exact (eq_trans H eq_refl).
Defined.

(** X11: a [commits] that is not an array (a string, a number, an object,
    [null]) is read as no commit at all: the message is the one of the same
    payload without [commits]. *)
Theorem non_array_commits_read_as_none {engine : Engine}
    (who : option Pusher) (r : option string)
    (repo : option Repository) (c : value) (w : world) :
  match c with VArray _ => False | _ => True end ->
  Service.handlePushEvent
    (VObject (property "pusher" pusher_value who ++ property "ref" VString r
              ++ property "repository" repository_value repo
              ++ [("commits", c)])%list) w
  = Service.handlePushEvent (to_value (mkPayload who r repo None)) w.
Proof.
  intros Hc. unfold Service.handlePushEvent. f_equal.
  unfold Service.handlePushEvent_try.
  rewrite Get_pusher, Get_ref, Get_repository, Get_commits.
  cbn [pusher ref repository commits optional].
  set (v := VObject _).
  assert (Get v "pusher" = Normal (optional pusher_value who)) as ->
    by (subst v; destruct who, r, repo; reflexivity).
  assert (Get v "ref" = Normal (optional VString r)) as ->
    by (subst v; destruct who, r, repo; reflexivity).
  assert (Get v "repository" = Normal (optional repository_value repo)) as ->
    by (subst v; destruct who, r, repo; reflexivity).
  assert (Get v "commits" = Normal c) as ->
    by (subst v; destruct who, r, repo; reflexivity).
  rewrite !bind_lift_Normal. cbv zeta.
  replace (match c with VArray elements => elements | _ => [] end) with (@nil value)
    by (destruct c; try reflexivity; contradiction).
  reflexivity.
Qed.

(** An instance: [commits] is a string. *)
Lemma non_array_commits_read_as_none_witness :
  Service.handlePushEvent (engine := Sample.engine)
    (VObject [("ref", VString "refs/heads/main"); ("commits", VString "none")])
    Sample.world0
  = Service.handlePushEvent (engine := Sample.engine)
      (to_value (mkPayload None (Some "refs/heads/main") None None)) Sample.world0.
Proof.
  apply (non_array_commits_read_as_none (engine := Sample.engine)
           None (Some "refs/heads/main") None
           (VString "none") Sample.world0).
  exact I.
Defined.

(** ** The time stamp *)

Lemma index_of_first_char (ch : ascii) (after : string) : forall before,
  forallb (fun c => negb (Ascii.eqb c ch)) (list_ascii_of_string before) = true ->
  index 0 (String ch EmptyString) (before ++ String ch after) = Some (length before).
Proof.
  induction before as [| b before IH]; intros Hfree.
  - cbn [append index prefix length]. destruct (ascii_dec ch ch); [| contradiction].
    now destruct after.
  - cbn [list_ascii_of_string forallb] in Hfree.
    apply andb_true_iff in Hfree as [Hb Hfree].
    apply negb_true_iff, Ascii.eqb_neq in Hb.
    cbn [append index prefix length].
    destruct (ascii_dec ch b) as [-> |]; [contradiction |].
    now rewrite (IH Hfree).
Qed.

Lemma String_replace_first_char (ch : ascii) (before after replacement : string) :
  forallb (fun c => negb (Ascii.eqb c ch)) (list_ascii_of_string before) = true ->
  String_replace (before ++ String ch after) (String ch EmptyString) replacement
  = before ++ replacement ++ after.
Proof.
  intros Hfree. unfold String_replace. rewrite (index_of_first_char ch after before Hfree).
  rewrite substring_0_append. do 2 f_equal.
  assert (forall m, substring (length before + 1) m (before ++ String ch after)
                    = substring 0 m after) as Hskip.
  { intros m. induction before as [| b before IH]; [reflexivity |].
    cbn [list_ascii_of_string forallb] in Hfree.
    apply andb_true_iff in Hfree as [_ Hfree]. cbn. now apply IH. }
  cbn [length]. rewrite Hskip, length_append. cbn [length].
  replace (length before + S (length after) - (length before + 1)) with (length after)
    by lia.
  apply substring_whole.
Qed.

(** X12: for a clock that reads [<date>T<time><rest>], with a date of ten
    characters without [T] and a time of eight (the ISO form of the years 0
    to 9999), the time stamp is [<date> <time> UTC]: the fraction of the
    second and the [Z] are cut off. *)
Theorem timestamp_is_date_and_time (date time rest : string) (w : world) :
  length date = 10 -> length time = 8 ->
  forallb (fun c => negb (Ascii.eqb c "T")) (list_ascii_of_string date) = true ->
  clock w (reads w) = date ++ "T" ++ time ++ rest ->
  outcome Service.timestamp_now w = Normal (date ++ " " ++ time ++ " UTC").
Proof.
  intros Hdate Htime Hfree Hclock.
  unfold outcome. rewrite timestamp_now_run. cbn [fst]. f_equal.
  unfold time_text, String_slice0. rewrite Hclock.
  change (date ++ "T" ++ time ++ rest) with (date ++ String "T" (time ++ rest)).
  rewrite (String_replace_first_char "T" date (time ++ rest) " " Hfree).
  rewrite <- !append_assoc.
  replace 19 with (length ((date ++ " ") ++ time))
    by (rewrite !length_append, Hdate, Htime; reflexivity).
  rewrite substring_0_append. now rewrite !append_assoc.
Qed.

(** An instance: the sample time. *)
Lemma timestamp_is_date_and_time_witness :
  outcome Service.timestamp_now Sample.world0
  = Normal ("2024-05-06" ++ " " ++ "07:08:09" ++ " UTC").
Proof.
  apply (timestamp_is_date_and_time "2024-05-06" "07:08:09" ".123Z" Sample.world0);
    reflexivity.
Defined.

(** ** A file field that is a string *)

Lemma collect_string_added {engine : Engine} (s : string) :
  List.length (code_points s) <= argument_limit ->
  Service.collect (Service.mkFiles [] [] []) (VObject [("added", VString s)])
  = Normal (Service.mkFiles (map VString (code_points s)) [] []).
Proof.
  intros Hfits%Nat.leb_le. destruct s as [| c s]; [reflexivity |].
  unfold Service.collect, Service.push_spread.
  cbn [Get own_property String.eqb Ascii.eqb Bool.eqb cbind Service.addedFiles
       Service.modifiedFiles Service.removedFiles ToBoolean is_empty negb iterate app].
  rewrite length_map, Hfits. reflexivity.
Qed.

(** X13: an [added] that is a string, not an array, is spread into its
    characters: when the string has no more characters than a call takes
    arguments, the section lists the first three distinct characters of the
    string, one per line (and [None] for the empty string). *)
Theorem string_added_is_spread_into_characters {engine : Engine} (s : string) (w : world) :
  List.length (code_points s) <= argument_limit ->
  outcome (Service.handlePushEvent
             (VObject [("commits", VArray [VObject [("added", VString s)]])])) w
  = Normal (VString (message_text
      (mkParts "Unknown" "unknown/unknown-repo" "unknown" 1 "  - No message"
               "No commit message provided"
               (match firstn 3 (dedupe (code_points s)) with
                | [] => "  - None"
                | [x] => "  - " ++ x
                | [x; y] => "  - " ++ x ++ LF ++ "  - " ++ y
                | x :: y :: z :: _ => "  - " ++ x ++ LF ++ "  - " ++ y ++ LF ++ "  - " ++ z
                end)
               "  - None" "  - None" (time_text (clock w (reads w)))))).
Proof.
  intros Hfits.
  replace (match firstn 3 (dedupe (code_points s)) with
           | [] => "  - None"
           | [x] => "  - " ++ x
           | [x; y] => "  - " ++ x ++ LF ++ "  - " ++ y
           | x :: y :: z :: _ => "  - " ++ x ++ LF ++ "  - " ++ y ++ LF ++ "  - " ++ z
           end)
    with (bullets_or_none (firstn 3 (dedupe (code_points s)))).
  2: { destruct (dedupe (code_points s)) as [| x [| y [| z l]]];
         cbn [firstn bullets_or_none map lines]; unfold bullet;
         rewrite ?append_assoc; reflexivity. }
  unfold outcome, Service.handlePushEvent, try_catch, Service.handlePushEvent_try.
  cbn [Get own_property String.eqb Ascii.eqb Bool.eqb].
  rewrite !bind_lift_Normal. cbv zeta.
  cbn [JS_or ToBoolean call_replace].
  rewrite !bind_lift_Normal.
  cbn [Get own_property String.eqb Ascii.eqb Bool.eqb].
  rewrite !bind_lift_Normal.
  cbn [Service.forEach]. rewrite collect_string_added by exact Hfits. cbn [cbind].
  set (commit := VObject [("added", VString s)]).
  assert (Service.commitMessages_of [commit] = Normal "  - No message") as ->
    by reflexivity.
  assert (forall branch : value,
            template [Lit "Processing "; Lit (Number_toString (List.length [commit]));
                      Lit " commits for push by @"; Sub (VString "Unknown");
                      Lit " to "; Sub branch]
            = let! b := ToString branch in
              Normal ("Processing 1 commits for push by @Unknown to " ++ b)) as ->.
  { intros branch. cbn [template cbind ToString]. destruct (ToString branch); [| reflexivity].
    cbn [cbind]. now rewrite append_empty_r. }
  change (JS_or (VString (String_replace "refs/heads/unknown" "refs/heads/" EmptyString))
                (VString "unknown")) with (VString "unknown").
  cbn [ToString cbind]. rewrite bind_lift_Normal.
  erewrite bind_Normal by reflexivity.
  change (ToBoolean (VString "unknown/unknown-repo")) with true. cbv iota.
  rewrite bind_lift_Normal.
  change (ToBoolean (Array_at [commit] 0)) with true. cbv iota.
  change (Get (Array_at [commit] 0) "message") with (@Normal value VUndefined).
  rewrite bind_lift_Normal. cbn [ToBoolean]. rewrite !bind_lift_Normal.
  cbn [Service.addedFiles Service.modifiedFiles Service.removedFiles].
  rewrite dedupe_and_limit_strings, formatFileList_strings, bind_lift_Normal.
  change (Service.formatFileList (Service.dedupe_and_limit [])) with (Normal "  - None").
  rewrite !bind_lift_Normal.
  erewrite bind_Normal by apply timestamp_now_run.
  rewrite bind_lift_Normal.
  erewrite (message_template_text (VString "Unknown")) by reflexivity.
  rewrite bind_lift_Normal. reflexivity.
Qed.

(** An instance: of [a➕ab] the characters [a], [➕] and [b] are listed, the
    second of them three bytes long. *)
Lemma string_added_is_spread_into_characters_witness :
  outcome (Service.handlePushEvent (engine := Sample.engine)
             (VObject [("commits", VArray [VObject [("added", VString "a➕ab")]])]))
          Sample.world0
  = Normal (VString (message_text
      (mkParts "Unknown" "unknown/unknown-repo" "unknown" 1 "  - No message"
               "No commit message provided"
               ("  - a" ++ LF ++ "  - ➕" ++ LF ++ "  - b")
               "  - None" "  - None" Sample.time))).
Proof.
  assert (List.length (code_points "a➕ab") <= argument_limit (Engine := Sample.engine))
    as Hfits by (apply Nat.leb_le; reflexivity).
  exact (eq_trans (string_added_is_spread_into_characters (engine := Sample.engine)
                     "a➕ab" Sample.world0 Hfits)
                  eq_refl).
Defined.

(* ================================================================== *)
(** * The request handler *)
(* ================================================================== *)

Import Handler.

(** What the first test of [POST] finds, and what it leaves on the console. *)
Lemma POST_gate secret (req : Request) (w : world) :
  (if header_is_falsy (x_hub_signature_256 req) then (Normal false, w)
   else Route.verifyWebhook secret (text req) (x_hub_signature_256 req) w)
  = (Normal (authentic secret req),
     if header_is_falsy (x_hub_signature_256 req) then w
     else match secret with
          | Some (String _ _) => w
          | _ => logged w "GITHUB_WEBHOOK_SECRET is not set"
          end).
Proof.
  unfold authentic.
  destruct (x_hub_signature_256 req) as [s |]; cbn [header_is_falsy].
  2: { destruct secret; reflexivity. }
  destruct (is_empty s) eqn:Hs.
  { destruct s; [| discriminate]. destruct secret as [key |]; [| reflexivity].
    rewrite andb_comm. reflexivity. }
  destruct secret as [[| c key] |]; try reflexivity.
  rewrite verifyWebhook_with_secret by reflexivity.
  unfold try_catch. rewrite verifyWebhook_try_run. cbn [is_empty negb andb].
  set (digest := "sha256=" ++ hmac_sha256_hex (String c key) (text req)).
  destruct (String.eqb_spec s digest) as [-> | Hne].
  - rewrite Nat.eqb_refl, timingSafeEqual_same. reflexivity.
  - destruct (length s =? length digest)%nat; [| reflexivity].
    destruct (timingSafeEqual _ _) as [[|] | e] eqn:Heq; try reflexivity.
    apply timingSafeEqual_true, Buffer_from_string_inj in Heq. contradiction.
Qed.

(** X14: a request that is not authentic (no secret, no header, or a header
    that is not the signature of the body) is answered [401 Invalid
    signature]; [JSON.parse] and [sendPushAlertAction] have no part in the
    answer, and nothing is logged unless the secret is missing.  An authentic
    request is never answered 401. *)
Theorem POST_rejects_what_is_not_authentic {engine : Engine} (secret : option string)
    (JSON_parse : string -> option value)
    (send : value -> world -> (SendResult + thrown) * world)
    (req : Request) (w : world) :
  (authentic secret req = false ->
   fst (POST secret JSON_parse send req w) = Normal (mkResponse "Invalid signature" 401)
   /\ (forall JSON_parse' send',
         POST secret JSON_parse' send' req w = POST secret JSON_parse send req w)
   /\ (forall c key, secret = Some (String c key) ->
         snd (POST secret JSON_parse send req w) = w))
  /\ (authentic secret req = true ->
      forall response w',
        POST secret JSON_parse send req w = (Normal response, w') ->
        status response <> 401).
Proof.
  unfold POST, POST_try. rewrite POST_gate. split.
  - intros ->. split; [reflexivity |]. split; [reflexivity |].
    intros c key ->. now destruct (header_is_falsy _).
  - intros -> response w'.
    destruct (JSON_parse (text req)) as [payload |].
    2: { intros [= <- _]. discriminate. }
    destruct (is_not_push _); [intros [= <- _]; discriminate |].
    destruct (Service.handlePushEvent payload _) as [[message | e] w2].
    2: { intros [= <- _]. discriminate. }
    destruct (send message w2) as [[result | t] w3].
    2: { intros [= <- _]. discriminate. }
    destruct (success result); intros [= <- _]; discriminate.
Qed.

(** Sample collaborators: a parser that knows the sample body, and a
    delivery that succeeds. *)
Lemma POST_rejects_what_is_not_authentic_witness :
  fst (POST (engine := Sample.engine) (Some Sample.secret) (fun _ => Some Sample.parsedBody)
            (fun _ w => (inl (mkSendResult true None), w))
            (mkRequest (Some "sha256=00") (Some "push") Sample.rawBody) Sample.world0)
  = Normal (mkResponse "Invalid signature" 401).
Proof.
  apply (proj1 (POST_rejects_what_is_not_authentic (engine := Sample.engine)
                  (Some Sample.secret)
                  (fun _ => Some Sample.parsedBody)
                  (fun _ w => (inl (mkSendResult true None), w))
                  (mkRequest (Some "sha256=00") (Some "push") Sample.rawBody)
                  Sample.world0)).
  vm_compute. reflexivity.
Defined.

(** X15: an authentic request whose body parses and whose event is not
    [push] (or is not given) is answered [200 Ignored event]: the payload is
    not formatted, nothing is delivered, nothing is logged. *)
Theorem POST_ignores_other_events {engine : Engine} (secret : option string)
    (JSON_parse : string -> option value)
    (send : value -> world -> (SendResult + thrown) * world)
    (req : Request) (payload : value) (w : world) :
  authentic secret req = true ->
  JSON_parse (text req) = Some payload ->
  x_github_event req <> Some "push" ->
  POST secret JSON_parse send req w = (Normal (mkResponse "Ignored event" 200), w).
Proof.
  intros Hauth Hparse Hevent. unfold POST, POST_try.
  rewrite POST_gate, Hauth, Hparse.
  assert (is_not_push (x_github_event req) = true) as ->.
  { destruct (x_github_event req) as [name |]; [| reflexivity]. cbn.
    destruct (String.eqb_spec name "push") as [-> |]; [contradiction | reflexivity]. }
  f_equal. unfold authentic in Hauth.
  destruct secret as [[| c key] |], (x_hub_signature_256 req) as [[| a s] |];
    try discriminate; reflexivity.
Qed.

Lemma POST_ignores_other_events_witness :
  POST (engine := Sample.engine) (Some Sample.secret) (fun _ => Some Sample.parsedBody)
       (fun _ w => (inl (mkSendResult true None), w))
       (mkRequest (Some (expected_signature Sample.secret Sample.rawBody))
                  (Some "ping") Sample.rawBody) Sample.world0
  = (Normal (mkResponse "Ignored event" 200), Sample.world0).
Proof.
  apply (POST_ignores_other_events (engine := Sample.engine)
           (Some Sample.secret) (fun _ => Some Sample.parsedBody)
           (fun _ w => (inl (mkSendResult true None), w))
           (mkRequest (Some (expected_signature Sample.secret Sample.rawBody))
                      (Some "ping") Sample.rawBody)
           Sample.parsedBody Sample.world0).
  - vm_compute. reflexivity.
  - reflexivity.
  - discriminate.
Defined.

(** X16: an authentic request whose body is not JSON is answered [500
    Internal Server Error], whatever its event is: the body is parsed before
    the event is looked at. *)
Theorem POST_fails_on_unparsable_body {engine : Engine} (secret : option string)
    (JSON_parse : string -> option value)
    (send : value -> world -> (SendResult + thrown) * world)
    (req : Request) (w : world) :
  authentic secret req = true ->
  JSON_parse (text req) = None ->
  POST secret JSON_parse send req w
  = (Normal (mkResponse "Internal Server Error" 500),
     logged w "Webhook error: SyntaxError").
Proof.
  intros Hauth Hparse. unfold POST, POST_try.
  rewrite POST_gate, Hauth, Hparse. unfold authentic in Hauth.
  destruct secret as [[| c key] |], (x_hub_signature_256 req) as [[| a s] |];
    try discriminate; reflexivity.
Qed.

Lemma POST_fails_on_unparsable_body_witness :
  POST (engine := Sample.engine) (Some Sample.secret) (fun _ => None)
       (fun _ w => (inl (mkSendResult true None), w))
       (mkRequest (Some (expected_signature Sample.secret "not json"))
                  (Some "ping") "not json") Sample.world0
  = (Normal (mkResponse "Internal Server Error" 500),
     logged Sample.world0 "Webhook error: SyntaxError").
Proof.
  apply (POST_fails_on_unparsable_body (engine := Sample.engine)
           (Some Sample.secret) (fun _ => None)
           (fun _ w => (inl (mkSendResult true None), w))
           (mkRequest (Some (expected_signature Sample.secret "not json"))
                      (Some "ping") "not json") Sample.world0).
  - vm_compute. reflexivity.
  - reflexivity.
Defined.

Lemma handlePushEvent_run {engine : Engine} payload w :
  exists s w', Service.handlePushEvent payload w = (Normal (VString s), w').
Proof.
  unfold Service.handlePushEvent, try_catch.
  destruct (Service.handlePushEvent_try payload w) as [[a | e] w'] eqn:Hrun.
  - destruct (handlePushEvent_try_returns_strings payload w a w' Hrun) as [s ->].
    now exists s, w'.
  - rewrite handlePushEvent_catch_run. eauto.
Qed.

Lemma authentic_world secret req w :
  authentic secret req = true ->
  (if header_is_falsy (x_hub_signature_256 req) then w
   else match secret with
        | Some (String _ _) => w
        | _ => logged w "GITHUB_WEBHOOK_SECRET is not set"
        end) = w.
Proof.
  unfold authentic.
  destruct secret as [[| c key] |], (x_hub_signature_256 req) as [[| a s] |];
    try discriminate; reflexivity.
Qed.

(** X17: for an authentic push whose body parses, the formatter's text
    (always a string, the fallback text included) is handed to the delivery,
    and the answer depends on the delivery alone: [200 OK] when it reports
    success; [500] when it reports failure, the logged error carrying the
    reported reason or [Failed to send Telegram alert]; [500] when it
    throws. *)
Theorem POST_answers_by_the_delivery {engine : Engine} (secret : option string)
    (JSON_parse : string -> option value)
    (send : value -> world -> (SendResult + thrown) * world)
    (req : Request) (payload : value) (w : world) :
  authentic secret req = true ->
  JSON_parse (text req) = Some payload ->
  x_github_event req = Some "push" ->
  exists s w1,
    Service.handlePushEvent payload w = (Normal (VString s), w1)
    /\ POST secret JSON_parse send req w
       = match send (VString s) w1 with
         | (inl result, w2) =>
             if success result then (Normal (mkResponse "OK" 200), w2)
             else (Normal (mkResponse "Internal Server Error" 500),
                   logged w2 ("Webhook error: Error: "
                              ++ match send_error result with
                                 | Some (String c reason) => String c reason
                                 | _ => "Failed to send Telegram alert"
                                 end))
         | (inr t, w2) =>
             (Normal (mkResponse "Internal Server Error" 500),
              logged w2 ("Webhook error: " ++ thrown_text t))
         end.
Proof.
  intros Hauth Hparse Hevent.
  destruct (handlePushEvent_run payload w) as (s & w1 & Hrun).
  exists s, w1. split; [assumption |].
  unfold POST, POST_try.
  rewrite POST_gate, Hauth, Hparse, Hevent, (authentic_world _ _ _ Hauth), Hrun.
  cbn [is_not_push String.eqb Ascii.eqb Bool.eqb negb].
  destruct (send (VString s) w1) as [[result | t] w2]; [| reflexivity].
  destruct (success result); [reflexivity |].
  destruct (send_error result) as [[| c reason] |]; reflexivity.
Qed.

Lemma POST_answers_by_the_delivery_witness :
  exists s w1,
    Service.handlePushEvent (engine := Sample.engine) Sample.parsedBody Sample.world0
    = (Normal (VString s), w1)
    /\ POST (engine := Sample.engine) (Some Sample.secret) (fun _ => Some Sample.parsedBody)
            (fun _ w => (inl (mkSendResult false None), w))
            (mkRequest (Some (expected_signature Sample.secret Sample.rawBody))
                       (Some "push") Sample.rawBody) Sample.world0
       = (Normal (mkResponse "Internal Server Error" 500),
          logged w1 ("Webhook error: Error: " ++ "Failed to send Telegram alert")).
Proof.
  apply (POST_answers_by_the_delivery (engine := Sample.engine) (Some Sample.secret)
           (fun _ => Some Sample.parsedBody)
           (fun _ w => (inl (mkSendResult false None), w))
           (mkRequest (Some (expected_signature Sample.secret Sample.rawBody))
                      (Some "push") Sample.rawBody)
           Sample.parsedBody Sample.world0).
  - vm_compute. reflexivity.
  - reflexivity.
  - reflexivity.
Defined.

(** X18: end to end, for an authentic push whose body parses to a payload of
    the documented shape, none of whose file arrays holds more entries than a
    call takes arguments: the text delivered is the message of that payload,
    stamped with the time read while formatting, after the one line the
    formatter logs; when the delivery reports success the answer is
    [200 OK]. *)
Theorem POST_delivers_the_message {engine : Engine} (secret : option string)
    (JSON_parse : string -> option value)
    (send : value -> world -> (SendResult + thrown) * world)
    (req : Request) (p : PushPayload) (result : SendResult) (w w2 : world) :
  authentic secret req = true ->
  JSON_parse (text req) = Some (to_value p) ->
  x_github_event req = Some "push" ->
  fits p = true ->
  send (VString (message_text (parts_of p (clock w (reads w)))))
       (mkWorld (console w ++ [log_line p]) (clock w) (S (reads w)))
  = (inl result, w2) ->
  success result = true ->
  POST secret JSON_parse send req w = (Normal (mkResponse "OK" 200), w2).
Proof.
  intros Hauth Hparse Hevent Hfits Hsend Hok. unfold POST, POST_try.
  rewrite POST_gate, Hauth, Hparse, Hevent, (authentic_world _ _ _ Hauth).
  cbn [is_not_push String.eqb Ascii.eqb Bool.eqb negb].
  unfold Service.handlePushEvent, try_catch.
  rewrite handlePushEvent_try_encoded by exact Hfits. rewrite Hsend, Hok. reflexivity.
Qed.

(** An instance: a push of one commit that adds two files, with a delivery
    that succeeds only on the text of that push and leaves a note of it. *)
Lemma POST_delivers_the_message_witness :
  let p := mkPayload None (Some "refs/heads/main") None
                     (Some [Sample.commit_adding ["a"; "b"]]) in
  let text :=
    message_text
      (mkParts "Unknown" "unknown/unknown-repo" "main" 1 "  - No message"
               "No commit message provided" ("  - a" ++ LF ++ "  - b") "  - None" "  - None"
               Sample.time) in
  POST (engine := Sample.engine) (Some Sample.secret) (fun _ => Some (to_value p))
       (fun message w =>
          match message with
          | VString s => (inl (mkSendResult (String.eqb s text) None), logged w "sent")
          | _ => (inl (mkSendResult false None), w)
          end)
       (mkRequest (Some (expected_signature Sample.secret Sample.rawBody))
                  (Some "push") Sample.rawBody) Sample.world0
  = (Normal (mkResponse "OK" 200),
     mkWorld ["Processing 1 commits for push by @Unknown to main"; "sent"]
             (fun _ => Sample.iso) 1).
Proof.
  cbv zeta.
  apply (POST_delivers_the_message (engine := Sample.engine) (Some Sample.secret)
           (fun _ => Some (to_value (mkPayload None (Some "refs/heads/main") None
                                       (Some [Sample.commit_adding ["a"; "b"]]))))
           _
           (mkRequest (Some (expected_signature Sample.secret Sample.rawBody))
                      (Some "push") Sample.rawBody)
           (mkPayload None (Some "refs/heads/main") None
              (Some [Sample.commit_adding ["a"; "b"]]))
           (mkSendResult true None) Sample.world0).
  - vm_compute. reflexivity.
  - reflexivity.
  - reflexivity.
  - reflexivity.
  - vm_compute. reflexivity.
  - reflexivity.
Defined.

(* ================================================================== *)
(** * A file array too long to spread *)
(* ================================================================== *)

(** X19: [target.push(...files)] passes every entry of [files] as an
    argument of one call.  When a commit of a payload of the documented
    shape has a file array with more entries than a call takes arguments,
    the loop over the commits throws a [RangeError]: the line of line 38 is
    logged already, the error is logged after it, and the message is the
    fallback message, stamped with the first reading of the clock. *)
Theorem oversized_file_array_gives_fallback {engine : Engine} (p : PushPayload) (w : world) :
  fits p = false ->
  Service.handlePushEvent (to_value p) w
  = (Normal (VString ("⚠️ *Push processing failed* ⚠️" ++ LF ++ "🕒 *At*: "
                      ++ time_text (clock w (reads w)))),
     mkWorld (console w
              ++ ["Processing " ++ Number_toString (List.length (commit_list p))
                  ++ " commits for push by @" ++ part_pusher (parts_of p EmptyString)
                  ++ " to " ++ part_branch (parts_of p EmptyString);
                  "Error parsing push event: RangeError"])
             (clock w) (S (reads w))).
Proof. intros Hlong. now rewrite handlePushEvent_too_long. Qed.

(** An instance: one commit that adds a hundred and fifty thousand paths. *)
Lemma oversized_file_array_gives_fallback_witness :
  Service.handlePushEvent (engine := Sample.engine)
    (VObject [("ref", VString "refs/heads/main");
              ("commits",
               VArray [VObject [("added",
                                 VArray (map VString (repeat "f" (150 * 1000))))]])])
    Sample.world0
  = (Normal (VString ("⚠️ *Push processing failed* ⚠️" ++ LF ++ "🕒 *At*: " ++ Sample.time)),
     mkWorld ["Processing 1 commits for push by @Unknown to main";
              "Error parsing push event: RangeError"]
             (fun _ => Sample.iso) 1).
Proof.
  assert (fits (engine := Sample.engine)
               (mkPayload None (Some "refs/heads/main") None
                  (Some [Sample.commit_adding (repeat "f" (150 * 1000))])) = false)
    as Hlong by (vm_compute; reflexivity).
  exact (eq_trans (oversized_file_array_gives_fallback (engine := Sample.engine) _
                     Sample.world0 Hlong)
                  eq_refl).
Defined.

(** X20: end to end, such a push is not refused: the text handed to the
    delivery is the fallback message, and when the delivery reports success
    the answer is [200 OK]. *)
Theorem POST_delivers_the_fallback {engine : Engine} (secret : option string)
    (JSON_parse : string -> option value)
    (send : value -> world -> (SendResult + thrown) * world)
    (req : Request) (p : PushPayload) (result : SendResult) (w w2 : world) :
  authentic secret req = true ->
  JSON_parse (text req) = Some (to_value p) ->
  x_github_event req = Some "push" ->
  fits p = false ->
  send (VString ("⚠️ *Push processing failed* ⚠️" ++ LF ++ "🕒 *At*: "
                 ++ time_text (clock w (reads w))))
       (mkWorld (console w ++ [log_line p; "Error parsing push event: RangeError"])
                (clock w) (S (reads w)))
  = (inl result, w2) ->
  success result = true ->
  POST secret JSON_parse send req w = (Normal (mkResponse "OK" 200), w2).
Proof.
  intros Hauth Hparse Hevent Hlong Hsend Hok. unfold POST, POST_try.
  rewrite POST_gate, Hauth, Hparse, Hevent, (authentic_world _ _ _ Hauth).
  cbn [is_not_push String.eqb Ascii.eqb Bool.eqb negb].
  rewrite handlePushEvent_too_long by exact Hlong.
  unfold failure_text. rewrite Hsend, Hok. reflexivity.
Qed.

(** An instance: the push of a hundred and fifty thousand removed paths. *)
Lemma POST_delivers_the_fallback_witness :
  let p := mkPayload None None None
                     (Some [mkCommit None None None (Some (repeat "f" (150 * 1000)))]) in
  POST (engine := Sample.engine) (Some Sample.secret) (fun _ => Some (to_value p))
       (fun message w =>
          match message with
          | VString s =>
              (inl (mkSendResult
                      (String.eqb s ("⚠️ *Push processing failed* ⚠️" ++ LF ++ "🕒 *At*: "
                                     ++ Sample.time)) None),
               logged w "sent")
          | _ => (inl (mkSendResult false None), w)
          end)
       (mkRequest (Some (expected_signature Sample.secret Sample.rawBody))
                  (Some "push") Sample.rawBody) Sample.world0
  = (Normal (mkResponse "OK" 200),
     mkWorld ["Processing 1 commits for push by @Unknown to unknown";
              "Error parsing push event: RangeError"; "sent"]
             (fun _ => Sample.iso) 1).
Proof.
  cbv zeta.
  apply (POST_delivers_the_fallback (engine := Sample.engine) (Some Sample.secret)
           (fun _ => Some (to_value
                             (mkPayload None None None
                                (Some [mkCommit None None None
                                         (Some (repeat "f" (150 * 1000)))]))))
           _
           (mkRequest (Some (expected_signature Sample.secret Sample.rawBody))
                      (Some "push") Sample.rawBody)
           (mkPayload None None None
              (Some [mkCommit None None None (Some (repeat "f" (150 * 1000)))]))
           (mkSendResult true None) Sample.world0).
  - vm_compute. reflexivity.
  - reflexivity.
  - reflexivity.
  - vm_compute. reflexivity.
  - vm_compute. reflexivity.
  - reflexivity.
Defined.
